(** * The Shopify dashboard component of odoo_shopify_automation

    A shallow embedding of [static/src/js/dashboard.js]: the component
    [ShopifyDashboard], its reactive state, its chart registry, and the part
    of the browser it talks to (clock, timers, web sockets, the RPC layer and
    the framework's notification service).

    JavaScript statements are computations of the monad [js]: they read and
    write one [dashboard] value and either return or throw.  A thrown
    exception keeps every write made before it, as in JavaScript. *)

From stdpp Require Import base option list gmap strings.
From Stdlib Require Import ZArith Lia.

Set Warnings "-register-all".

Local Open Scope string_scope.
Local Open Scope list_scope.
Local Open Scope Z_scope.

(** ** Values *)

(** What [JSON.parse] can hand to the component, plus [undefined], which is
    what reading a missing property yields.  Numbers are the integer-valued
    ones; objects list their own properties. *)
Inductive jsval : Type :=
| JUndefined
| JNull
| JBool (b : bool)
| JNumber (n : Z)
| JString (s : string)
| JArray (items : list jsval)
| JObject (fields : list (string * jsval)).

(** The counters of [realTimeData], as far as this development follows
    them: absent (the state is created as the empty object), [null], a
    boolean, NaN, or a number.  A number is an integer-valued double, given
    by its value.  A counter the server sends as a string, an array or an
    object is not followed: what [x++] makes of it depends on its text. *)
Inductive jscount : Type :=
| CUndefined
| CNull
| CBool (b : bool)
| CNaN
| CNum (n : Z).

(** [ChartError] is the Error the Chart.js constructor throws. *)
Inductive exn : Type :=
| TypeError
| SyntaxError
| RpcError
| ChartError.

(** The text of a notification: either a template literal with one
    interpolated value, or a value stored as it came. *)
Inductive message : Type :=
| Template (before : string) (v : jsval) (after : string)
| Raw (v : jsval).

(** The object literal handed to [addNotification].  [a_id] is its [id]
    property when it has a numeric one; the handlers of this file build
    their literals without one. *)
Record notification_arg : Type := NotificationArg {
  a_type : string;
  a_title : string;
  a_message : message;
  a_icon : string;
  a_id : option Z;
}.

(** An entry of [state.notifications]: the spread of the argument with [id]
    and [timestamp] set from the clock. *)
Record notification : Type := Notification {
  n_type : string;
  n_title : string;
  n_message : message;
  n_icon : string;
  n_id : Z;
  n_timestamp : Z;
}.

(** A label of a chart: the locale rendering of an instant (what
    [toLocaleTimeString] gives for it), or a value supplied by the server or
    by the chart's initial configuration. *)
Inductive chart_label : Type :=
| TimeLabel (ms : Z)
| DataLabel (v : jsval).

(** A Chart.js instance, as far as the component touches it:
    [chart.data.labels] and [chart.data.datasets[0].data].  Its [update] and
    [destroy] are calls into the drawing library and leave both alone. *)
Record chart : Type := Chart {
  labels : list chart_label;
  data : list jsval;
}.

Record real_time_data : Type := RealTimeData {
  order_count : jscount;
  customer_count : jscount;
  error_count : jscount;
}.

(** The answer of [get_dashboard_data]: the counters, and the series each
    chart is refreshed from when the field is present. *)
Record snapshot : Type := Snapshot {
  s_counts : real_time_data;
  sales_chart_data : option (list chart_label * list jsval);
  revenue_distribution : option (list jsval);
  customer_growth : option (list jsval);
  inventory_status : option (list jsval);
}.

(** ** The browser side *)

(** What a pending [setTimeout] will run. *)
Inductive timer_action : Type :=
| ExpireNotification (id : option Z)
| Reconnect.

Inductive ready_state : Type :=
| Connecting
| Open
| Closed.

(** Who awaits an [orm.call] in flight. *)
Inductive fetch_origin : Type :=
| FromWillStart
| FromInterval.

(** A call of the framework's notification service. *)
Record toast : Type := Toast {
  t_text : string;
  t_type : string;
}.

(** The page, as far as the component looks at it: the ids of its elements
    and, for each element of class [o_health_value], its [data-metric]. *)
Record dom : Type := Dom {
  element_ids : list string;
  health_metrics : list string;
}.

(** ** The component and its environment *)

Record dashboard : Type := Dashboard {
  (* this.state *)
  loading : bool;
  realTimeData : real_time_data;
  notifications : list notification;
  systemHealth : jsval;
  (* fields of the component *)
  chartInstances : gmap string chart;
  updateInterval : option positive;
  (* the browser *)
  clock : Z;
  timeouts : list (Z * timer_action);
  intervals : list positive;
  next_handle : positive;
  sockets : list ready_state;
  inflight : list fetch_origin;
  toasts : list toast;
  document : dom;
}.

Definition set_loading (v : bool) (d : dashboard) : dashboard :=
  Dashboard v (realTimeData d) (notifications d) (systemHealth d)
    (chartInstances d) (updateInterval d) (clock d) (timeouts d) (intervals d)
    (next_handle d) (sockets d) (inflight d) (toasts d) (document d).

Definition set_realTimeData (v : real_time_data) (d : dashboard) : dashboard :=
  Dashboard (loading d) v (notifications d) (systemHealth d)
    (chartInstances d) (updateInterval d) (clock d) (timeouts d) (intervals d)
    (next_handle d) (sockets d) (inflight d) (toasts d) (document d).

Definition set_notifications (v : list notification) (d : dashboard) : dashboard :=
  Dashboard (loading d) (realTimeData d) v (systemHealth d)
    (chartInstances d) (updateInterval d) (clock d) (timeouts d) (intervals d)
    (next_handle d) (sockets d) (inflight d) (toasts d) (document d).

Definition set_systemHealth (v : jsval) (d : dashboard) : dashboard :=
  Dashboard (loading d) (realTimeData d) (notifications d) v
    (chartInstances d) (updateInterval d) (clock d) (timeouts d) (intervals d)
    (next_handle d) (sockets d) (inflight d) (toasts d) (document d).

Definition set_chartInstances (v : gmap string chart) (d : dashboard) : dashboard :=
  Dashboard (loading d) (realTimeData d) (notifications d) (systemHealth d)
    v (updateInterval d) (clock d) (timeouts d) (intervals d)
    (next_handle d) (sockets d) (inflight d) (toasts d) (document d).

Definition set_updateInterval (v : option positive) (d : dashboard) : dashboard :=
  Dashboard (loading d) (realTimeData d) (notifications d) (systemHealth d)
    (chartInstances d) v (clock d) (timeouts d) (intervals d)
    (next_handle d) (sockets d) (inflight d) (toasts d) (document d).

Definition set_clock (v : Z) (d : dashboard) : dashboard :=
  Dashboard (loading d) (realTimeData d) (notifications d) (systemHealth d)
    (chartInstances d) (updateInterval d) v (timeouts d) (intervals d)
    (next_handle d) (sockets d) (inflight d) (toasts d) (document d).

Definition set_timeouts (v : list (Z * timer_action)) (d : dashboard) : dashboard :=
  Dashboard (loading d) (realTimeData d) (notifications d) (systemHealth d)
    (chartInstances d) (updateInterval d) (clock d) v (intervals d)
    (next_handle d) (sockets d) (inflight d) (toasts d) (document d).

Definition set_intervals (v : list positive) (d : dashboard) : dashboard :=
  Dashboard (loading d) (realTimeData d) (notifications d) (systemHealth d)
    (chartInstances d) (updateInterval d) (clock d) (timeouts d) v
    (next_handle d) (sockets d) (inflight d) (toasts d) (document d).

Definition set_next_handle (v : positive) (d : dashboard) : dashboard :=
  Dashboard (loading d) (realTimeData d) (notifications d) (systemHealth d)
    (chartInstances d) (updateInterval d) (clock d) (timeouts d) (intervals d)
    v (sockets d) (inflight d) (toasts d) (document d).

Definition set_sockets (v : list ready_state) (d : dashboard) : dashboard :=
  Dashboard (loading d) (realTimeData d) (notifications d) (systemHealth d)
    (chartInstances d) (updateInterval d) (clock d) (timeouts d) (intervals d)
    (next_handle d) v (inflight d) (toasts d) (document d).

Definition set_inflight (v : list fetch_origin) (d : dashboard) : dashboard :=
  Dashboard (loading d) (realTimeData d) (notifications d) (systemHealth d)
    (chartInstances d) (updateInterval d) (clock d) (timeouts d) (intervals d)
    (next_handle d) (sockets d) v (toasts d) (document d).

Definition set_toasts (v : list toast) (d : dashboard) : dashboard :=
  Dashboard (loading d) (realTimeData d) (notifications d) (systemHealth d)
    (chartInstances d) (updateInterval d) (clock d) (timeouts d) (intervals d)
    (next_handle d) (sockets d) (inflight d) v (document d).

(** ** The monad of JavaScript statements *)

Inductive outcome (A : Type) : Type :=
| Returned (a : A)
| Thrown (e : exn).
Arguments Returned {A} a.
Arguments Thrown {A} e.

Definition js (A : Type) : Type := dashboard → outcome A * dashboard.

#[export] Instance js_ret : MRet js := λ A a d, (Returned a, d).

#[export] Instance js_bind : MBind js := λ A B f m d,
  match m d with
  | (Returned a, d') => f a d'
  | (Thrown e, d') => (Thrown e, d')
  end.

Definition throw {A : Type} (e : exn) : js A := λ d, (Thrown e, d).
Definition get : js dashboard := λ d, (Returned d, d).
Definition modify (f : dashboard → dashboard) : js unit := λ d, (Returned tt, f d).

(** [try { body } catch (error) { handler }] *)
Definition try_catch {A : Type} (body : js A) (handler : exn → js A) : js A := λ d,
  match body d with
  | (Returned a, d') => (Returned a, d')
  | (Thrown e, d') => handler e d'
  end.

(** [try { body } finally { cleanup }], for a [cleanup] that returns. *)
Definition finally {A : Type} (body : js A) (cleanup : js unit) : js A := λ d,
  match body d with
  | (r, d') =>
      match cleanup d' with
      | (Returned _, d'') => (r, d'')
      | (Thrown e, d'') => (Thrown e, d'')
      end
  end.

(** The state a computation leaves, and whether it returned. *)
Definition exec {A : Type} (m : js A) (d : dashboard) : dashboard := (m d).2.

Definition returns {A : Type} (m : js A) (d : dashboard) : bool :=
  match (m d).1 with
  | Returned _ => true
  | Thrown _ => false
  end.

Fixpoint forEach {A : Type} (f : A → js unit) (l : list A) : js unit :=
  match l with
  | [] => mret tt
  | x :: l' => f x;; forEach f l'
  end.

(** ** Helpers of the language *)

Fixpoint assoc (k : string) (fields : list (string * jsval)) : option jsval :=
  match fields with
  | [] => None
  | (k', v) :: fields' => if String.eqb k k' then Some v else assoc k fields'
  end.

(** [v.k] for the property names this file reads ([type], [payload],
    [order_number], [amount], [name], [message], a health metric): a
    TypeError on [undefined] and [null], the own property of an object,
    [undefined] otherwise. *)
Definition get_prop (v : jsval) (k : string) : js jsval :=
  match v with
  | JUndefined | JNull => throw TypeError
  | JObject fields => mret (default JUndefined (assoc k fields))
  | _ => mret JUndefined
  end.

(** 2^53: up to it every integer is a double. *)
Definition two_53 : Z := 9007199254740992.

(** The double nearest to an integer, ties going to the even significand:
    the integer itself up to 2^53 in magnitude, and beyond it a multiple of
    the spacing of the doubles there. *)
Definition round_to_double (z : Z) : Z :=
  let a := Z.abs z in
  if a <=? two_53 then z
  else
    let spacing := 2 ^ (Z.log2 a - 52) in
    let q := a / spacing in
    let r := a mod spacing in
    let up := (spacing <? 2 * r) || ((spacing =? 2 * r) && Z.odd q) in
    Z.sgn z * ((if up then q + 1 else q) * spacing).

(** [x++] on a counter: the counter is taken as a number ([undefined] and
    NaN as NaN, [null] and [false] as 0, [true] as 1) and the double nearest
    to that number plus one is stored. *)
Definition increment (c : jscount) : jscount :=
  match c with
  | CNum n => CNum (round_to_double (n + 1))
  | CNull => CNum 1
  | CBool b => CNum (if b then 2 else 1)
  | CUndefined | CNaN => CNaN
  end.

(** [Array.prototype.findIndex]; [None] stands for -1. *)
Fixpoint findIndex {A : Type} (p : A → bool) (l : list A) : option nat :=
  match l with
  | [] => None
  | x :: l' => if p x then Some 0%nat else S <$> findIndex p l'
  end.

(** [n.id === notificationId]: a stored id is a number, so it equals no
    argument that is not one. *)
Definition id_is (notificationId : option Z) (n : notification) : bool :=
  match notificationId with
  | Some k => Z.eqb (n_id n) k
  | None => false
  end.

Definition setTimeout (action : timer_action) (delay : Z) : js unit :=
  modify (λ d, set_timeouts (timeouts d ++ [(clock d + delay, action)]) d).

Definition set_chart (key : string) (c : chart) : js unit :=
  modify (λ d, set_chartInstances (<[key := c]> (chartInstances d)) d).

(** ** The notification queue *)

Definition removeNotification (notificationId : option Z) : js unit :=
  d ← get;
  match findIndex (id_is notificationId) (notifications d) with
  | Some index => modify (set_notifications (delete index (notifications d)))
  | None => mret tt
  end.

(** The entry [addNotification] stores for an argument at an instant. *)
Definition entry_of (a : notification_arg) (now : Z) : notification :=
  Notification (a_type a) (a_title a) (a_message a) (a_icon a) now now.

Definition addNotification (notification : notification_arg) : js unit :=
  modify (λ d, set_notifications (entry_of notification (clock d) :: notifications d) d);;
  d ← get;
  (if bool_decide (10 < length (notifications d))%nat
   then modify (set_notifications (take 10 (notifications d)))
   else mret tt);;
  setTimeout (ExpireNotification (a_id notification)) 5000.

(** ** The charts *)

Definition getElementById (id : string) : js bool :=
  d ← get; mret (bool_decide (id ∈ element_ids (document d))).

Definition text_labels (l : list string) : list chart_label :=
  (λ s, DataLabel (JString s)) <$> l.

(** [new Chart(ctx, config)] followed by [chartInstances.set(key, chart)].
    The constructor refuses a canvas that carries a chart and throws.  The
    canvas of a chart the registry holds carries that chart: the registry
    gets a chart only from the constructor on its canvas, and forgets it
    only in [willUnmount], after destroying it. *)
Definition new_Chart (key : string) (c : chart) : js unit :=
  d ← get;
  match chartInstances d !! key with
  | Some _ => throw ChartError
  | None => set_chart key c
  end.

Definition initializeSalesChart : js unit :=
  ctx ← getElementById "sales_chart";
  if (ctx : bool) then new_Chart "sales" (Chart [] []) else mret tt.

Definition initializeRevenueChart : js unit :=
  ctx ← getElementById "revenue_chart";
  if (ctx : bool)
  then new_Chart "revenue"
         (Chart (text_labels ["Online Sales"; "In-Store Sales"; "Wholesale"])
                (JNumber <$> [65; 25; 10]))
  else mret tt.

Definition initializeCustomerChart : js unit :=
  ctx ← getElementById "customer_chart";
  if (ctx : bool)
  then new_Chart "customer"
         (Chart (text_labels ["Jan"; "Feb"; "Mar"; "Apr"; "May"; "Jun"])
                (JNumber <$> [120; 150; 180; 200; 220; 250]))
  else mret tt.

Definition initializeInventoryChart : js unit :=
  ctx ← getElementById "inventory_chart";
  if (ctx : bool)
  then new_Chart "inventory"
         (Chart (text_labels ["In Stock"; "Low Stock"; "Out of Stock"])
                (JNumber <$> [70; 20; 10]))
  else mret tt.

Definition initializeCharts : js unit :=
  initializeSalesChart;;
  initializeRevenueChart;;
  initializeCustomerChart;;
  initializeInventoryChart.

(** [chart.data.datasets[0].data = values] when the chart exists and the
    snapshot has the field. *)
Definition replace_dataset (key : string) (field : option (list jsval)) : js unit :=
  d ← get;
  match chartInstances d !! key, field with
  | Some c, Some values => set_chart key (Chart (labels c) values)
  | _, _ => mret tt
  end.

Definition updateRevenueChart (data : snapshot) : js unit :=
  replace_dataset "revenue" (revenue_distribution data).

Definition updateCustomerChart (data : snapshot) : js unit :=
  replace_dataset "customer" (customer_growth data).

Definition updateInventoryChart (data : snapshot) : js unit :=
  replace_dataset "inventory" (inventory_status data).

Definition updateCharts (data : snapshot) : js unit :=
  d ← get;
  match chartInstances d !! "sales", sales_chart_data data with
  | Some salesChart, Some (new_labels, values) => set_chart "sales" (Chart new_labels values)
  | _, _ => mret tt
  end;;
  updateRevenueChart data;;
  updateCustomerChart data;;
  updateInventoryChart data.

Definition updateSalesChart (orderData : jsval) : js unit :=
  d ← get;
  match chartInstances d !! "sales" with
  | Some salesChart =>
      let timeLabel := TimeLabel (clock d) in
      let pushed_labels := labels salesChart ++ [timeLabel] in
      set_chart "sales" (Chart pushed_labels (data salesChart));;
      amount ← get_prop orderData "amount";
      let pushed_data := data salesChart ++ [amount] in
      set_chart "sales" (Chart pushed_labels pushed_data);;
      if bool_decide (20 < length pushed_labels)%nat
      then set_chart "sales" (Chart (drop 1 pushed_labels) (drop 1 pushed_data))
      else mret tt
  | None => mret tt
  end.

(** Only the page is written; reading a metric off an [undefined] or [null]
    health record throws at the first element. *)
Definition updateSystemHealthDisplay : js unit :=
  d ← get;
  forEach (λ metric, get_prop (systemHealth d) metric;; mret tt)
          (health_metrics (document d)).

(** ** The handlers of the push channel *)

(** The double-quote character of the two quoted templates. *)
Definition dquote : string :=
  String (Ascii.Ascii false true false false false true false false) EmptyString.

Definition handleOrderCreated (orderData : jsval) : js unit :=
  modify (λ d, set_realTimeData
    (RealTimeData (increment (order_count (realTimeData d)))
                  (customer_count (realTimeData d))
                  (error_count (realTimeData d))) d);;
  order_number ← get_prop orderData "order_number";
  addNotification
    (NotificationArg "success" "New Order"
       (Template "Order #" order_number " created") "fa-shopping-cart" None);;
  updateSalesChart orderData.

Definition handleProductUpdated (productData : jsval) : js unit :=
  name ← get_prop productData "name";
  addNotification
    (NotificationArg "info" "Product Updated"
       (Template ("Product " +:+ dquote) name (dquote +:+ " updated")) "fa-cube" None).

Definition handleCustomerSynced (customerData : jsval) : js unit :=
  modify (λ d, set_realTimeData
    (RealTimeData (order_count (realTimeData d))
                  (increment (customer_count (realTimeData d)))
                  (error_count (realTimeData d))) d);;
  name ← get_prop customerData "name";
  addNotification
    (NotificationArg "success" "Customer Synced"
       (Template ("Customer " +:+ dquote) name (dquote +:+ " synced")) "fa-users" None).

Definition handleErrorOccurred (errorData : jsval) : js unit :=
  modify (λ d, set_realTimeData
    (RealTimeData (order_count (realTimeData d))
                  (customer_count (realTimeData d))
                  (increment (error_count (realTimeData d)))) d);;
  text ← get_prop errorData "message";
  addNotification
    (NotificationArg "danger" "Error Occurred" (Raw text) "fa-exclamation-triangle" None).

Definition handleSystemHealthUpdate (healthData : jsval) : js unit :=
  modify (set_systemHealth healthData);;
  updateSystemHealthDisplay.

(** [v === s] for a string literal [s]. *)
Definition is_string (s : string) (v : jsval) : bool :=
  match v with
  | JString s' => String.eqb s' s
  | _ => false
  end.

Definition handleRealTimeUpdate (data : jsval) : js unit :=
  type ← get_prop data "type";
  if is_string "order_created" type then
    payload ← get_prop data "payload"; handleOrderCreated payload
  else if is_string "product_updated" type then
    payload ← get_prop data "payload"; handleProductUpdated payload
  else if is_string "customer_synced" type then
    payload ← get_prop data "payload"; handleCustomerSynced payload
  else if is_string "error_occurred" type then
    payload ← get_prop data "payload"; handleErrorOccurred payload
  else if is_string "system_health" type then
    payload ← get_prop data "payload"; handleSystemHealthUpdate payload
  else mret tt.

(** ** The push channel *)

(** A text frame, by what [JSON.parse] makes of it: a SyntaxError, or the
    value it denotes. *)
Inductive frame : Type :=
| Unparseable
| Parses (v : jsval).

Definition JSON_parse (event_data : frame) : js jsval :=
  match event_data with
  | Unparseable => throw SyntaxError
  | Parses v => mret v
  end.

(** [new WebSocket(...)]; the four callbacks below are the ones it is given. *)
Definition setupWebSocket : js unit :=
  modify (λ d, set_sockets (sockets d ++ [Connecting]) d).

Definition ws_onopen : js unit := mret tt.

Definition ws_onmessage (event_data : frame) : js unit :=
  data ← JSON_parse event_data;
  handleRealTimeUpdate data.

Definition ws_onerror : js unit := mret tt.

Definition ws_onclose : js unit := setTimeout Reconnect 5000.

(** ** Polling *)

Definition notification_add (text type : string) : js unit :=
  modify (λ d, set_toasts (toasts d ++ [Toast text type]) d).

(** [loadDashboardData] up to its [await]: the flag is raised and the RPC
    leaves. *)
Definition loadDashboardData (origin : fetch_origin) : js unit :=
  modify (set_loading true);;
  modify (λ d, set_inflight (inflight d ++ [origin]) d).

(** [loadDashboardData] from its [await] on, for an RPC that resolved with
    [Some data] or was rejected. *)
Definition loadDashboardData_settled (answer : option snapshot) : js unit :=
  finally
    (try_catch
       (data ← (match answer with
                | Some data => mret data
                | None => throw RpcError
                end);
        modify (set_realTimeData (s_counts data));;
        updateCharts data)
       (λ error, notification_add "Failed to load dashboard data" "danger"))
    (modify (set_loading false)).

Definition setInterval : js positive :=
  d ← get;
  modify (set_next_handle (Pos.succ (next_handle d)));;
  modify (set_intervals (intervals d ++ [next_handle d]));;
  mret (next_handle d).

Definition clearInterval (h : positive) : js unit :=
  modify (λ d, set_intervals (filter (λ h', h' ≠ h) (intervals d)) d).

Definition initializeRealTimeUpdates : js unit :=
  h ← setInterval;
  modify (set_updateInterval (Some h));;
  setupWebSocket.

(** ** Life cycle *)

(** The component as [setup] leaves it, on a page and at an instant. *)
Definition setup (page : dom) (now : Z) : dashboard :=
  Dashboard false (RealTimeData CUndefined CUndefined CUndefined) [] (JObject [])
    ∅ None now [] [] 1%positive [] [] [] page.

(** [onWillStart] up to its [await]; [initializeRealTimeUpdates] follows when
    the load is over. *)
Definition onWillStart : js unit := loadDashboardData FromWillStart.

(** The listeners of [setupEventListeners] live in the page. *)
Definition setupEventListeners : js unit := mret tt.

Definition onMounted : js unit :=
  initializeCharts;;
  setupEventListeners.

Definition willUnmount : js unit :=
  d ← get;
  match updateInterval d with
  | Some h => clearInterval h
  | None => mret tt
  end;;
  modify (set_chartInstances ∅).

(** ** The event loop *)

Definition run_timer (action : timer_action) : js unit :=
  match action with
  | ExpireNotification id => removeNotification id
  | Reconnect => setupWebSocket
  end.

(** The clock reaches [t]: the timeouts due by then leave the table and run,
    in the order they were set. *)
Definition elapse (t : Z) : js unit :=
  d ← get;
  let now := Z.max (clock d) t in
  modify (set_clock now);;
  modify (set_timeouts (filter (λ p : Z * timer_action, ¬ (p.1 ≤ now)%Z) (timeouts d)));;
  forEach (λ p : Z * timer_action, run_timer p.2)
          (filter (λ p : Z * timer_action, (p.1 ≤ now)%Z) (timeouts d)).

(** What can happen to the dashboard.  A fetch settles with the answer of the
    server or with a rejection; a socket is named by its rank of creation;
    [CloseClicked id] is a click on a close button whose notification id
    parses to [id], heard by the listener [setupEventListeners] leaves on
    the page. *)
Inductive event : Type :=
| WillStart
| Mounted
| IntervalFires (h : positive)
| FetchSettles (i : nat) (answer : option snapshot)
| SocketOpens (i : nat)
| SocketMessage (i : nat) (event_data : frame)
| SocketError (i : nat)
| SocketCloses (i : nat)
| TimePasses (t : Z)
| CloseClicked (id : option Z)
| WillUnmount.

Definition is_live (s : option ready_state) : bool :=
  match s with
  | Some Connecting | Some Open => true
  | _ => false
  end.

Definition step (e : event) : js unit :=
  d ← get;
  match e with
  | WillStart => onWillStart
  | Mounted => onMounted
  | IntervalFires h =>
      if bool_decide (h ∈ intervals d) then loadDashboardData FromInterval else mret tt
  | FetchSettles i answer =>
      match inflight d !! i with
      | Some origin =>
          modify (set_inflight (delete i (inflight d)));;
          loadDashboardData_settled answer;;
          match origin with
          | FromWillStart => initializeRealTimeUpdates
          | FromInterval => mret tt
          end
      | None => mret tt
      end
  | SocketOpens i =>
      match sockets d !! i with
      | Some Connecting => modify (set_sockets (<[i := Open]> (sockets d)));; ws_onopen
      | _ => mret tt
      end
  | SocketMessage i event_data =>
      match sockets d !! i with
      | Some Open => ws_onmessage event_data
      | _ => mret tt
      end
  | SocketError i => if is_live (sockets d !! i) then ws_onerror else mret tt
  | SocketCloses i =>
      if is_live (sockets d !! i)
      then modify (set_sockets (<[i := Closed]> (sockets d)));; ws_onclose
      else mret tt
  | TimePasses t => elapse t
  | CloseClicked id => removeNotification id
  | WillUnmount => willUnmount
  end.

(** A run of the loop; an exception that escapes a callback is reported by
    the browser and the loop goes on. *)
Definition run (es : list event) (d : dashboard) : dashboard :=
  foldl (λ d e, exec (step e) d) d es.

(** * The vocabulary of the properties *)

(** A push made when the clock reads [p.1]. *)
Definition push_at (p : Z * notification_arg) : js unit :=
  modify (set_clock p.1);; addNotification p.2.

(** The timers that cannot remove a notification: a reconnection, and the
    expiry of a notification whose argument had no id. *)
Definition harmless (p : Z * timer_action) : bool :=
  match p.2 with
  | ExpireNotification (Some _) => false
  | _ => true
  end.

(** The last [n] elements of a list. *)
Definition keep_last {A : Type} (n : nat) (l : list A) : list A :=
  drop (length l - n) l.

(** The eviction step of [updateSalesChart], on a chart that was just
    appended to. *)
Definition shift_over_20 (c : chart) : chart :=
  if bool_decide (20 < length (labels c))%nat
  then Chart (drop 1 (labels c)) (drop 1 (data c))
  else c.

Definition nullish (v : jsval) : bool :=
  match v with
  | JUndefined | JNull => true
  | _ => false
  end.

(** [v.k] where it does not throw. *)
Definition prop_of (k : string) (v : jsval) : jsval :=
  match v with
  | JObject fields => default JUndefined (assoc k fields)
  | _ => JUndefined
  end.

(** An append made when the clock reads [p.1]. *)
Definition append_at (p : Z * jsval) : js unit :=
  modify (set_clock p.1);; updateSalesChart p.2.

(** What [JSON.parse] gives for a frame with the two fields [type] and
    [payload]. *)
Definition message_of (type : string) (payload : jsval) : jsval :=
  JObject [("type", JString type); ("payload", payload)].

(** The arguments the handlers hand to [addNotification]. *)
Definition order_notice (payload : jsval) : notification_arg :=
  NotificationArg "success" "New Order"
    (Template "Order #" (prop_of "order_number" payload) " created") "fa-shopping-cart" None.

Definition product_notice (payload : jsval) : notification_arg :=
  NotificationArg "info" "Product Updated"
    (Template ("Product " +:+ dquote) (prop_of "name" payload) (dquote +:+ " updated"))
    "fa-cube" None.

(** The state [addNotification] leaves. *)
Definition pushed (a : notification_arg) (d : dashboard) : dashboard :=
  set_timeouts (timeouts d ++ [(clock d + 5000, ExpireNotification (a_id a))])
    (set_notifications (take 10 (entry_of a (clock d) :: notifications d)) d).

Definition count_order (d : dashboard) : dashboard :=
  set_realTimeData
    (RealTimeData (increment (order_count (realTimeData d)))
                  (customer_count (realTimeData d))
                  (error_count (realTimeData d))) d.

(** Scenes the examples below start from: a page with the four canvases, a
    first answer of the server, the dashboard loaded, mounted and connected,
    the dashboard loaded and connected but not mounted yet, and the
    dashboard whose first load failed and that is not mounted yet. *)
Definition page : dom :=
  Dom ["sales_chart"; "revenue_chart"; "customer_chart"; "inventory_chart"] ["cpu"].

Definition first_snapshot : snapshot :=
  Snapshot (RealTimeData (CNum 7) (CNum 3) (CNum 0)) None None None None.

Definition live : dashboard :=
  run [WillStart; FetchSettles 0 (Some first_snapshot); Mounted; SocketOpens 0]
      (setup page 0).

Definition awaiting_mount : dashboard :=
  run [WillStart; FetchSettles 0 (Some first_snapshot); SocketOpens 0] (setup page 0).

Definition unloaded : dashboard :=
  run [WillStart; FetchSettles 0 None; SocketOpens 0] (setup page 0).

(** The dashboard whose last poll brought an order count of 2^53. *)
Definition saturated : dashboard :=
  run [IntervalFires 1;
       FetchSettles 0
         (Some (Snapshot (RealTimeData (CNum two_53) (CNum 3) (CNum 0)) None None None None))]
      live.

Definition order_42 : jsval :=
  JObject [("order_number", JNumber 1001); ("amount", JNumber 42)].

(** The three effects the specification gives an [order_created] event. *)
Definition counted_one (d d' : dashboard) : Prop :=
  ∃ n : Z, order_count (realTimeData d) = CNum n ∧
           order_count (realTimeData d') = CNum (n + 1).

Definition appended_one (amount : jsval) (d d' : dashboard) : Prop :=
  ∃ (c : chart) (l : chart_label),
    chartInstances d !! "sales" = Some c ∧
    chartInstances d' !! "sales" =
      Some (shift_over_20 (Chart (labels c ++ [l]) (data c ++ [amount]))).

Definition enqueued_one (type : string) (d d' : dashboard) : Prop :=
  ∃ entry : notification,
    n_type entry = type ∧ notifications d' = take 10 (entry :: notifications d).

Definition order_created_effect (amount : jsval) (d d' : dashboard) : Prop :=
  counted_one d d' ∧ appended_one amount d d' ∧ enqueued_one "success" d d'.

Definition type_known (type : jsval) : bool :=
  is_string "order_created" type || is_string "product_updated" type ||
  is_string "customer_synced" type || is_string "error_occurred" type ||
  is_string "system_health" type.

(** A frame that does not parse, or whose [type] is none of the five. *)
Definition malformed (f : frame) : bool :=
  match f with
  | Unparseable => true
  | Parses v => negb (type_known (prop_of "type" v))
  end.

(** The malformed frames on which the callback throws: the text that is not
    JSON, and the JSON [null], which has no [type] to read. *)
Definition escapes (f : frame) : bool :=
  match f with
  | Unparseable => true
  | Parses v => nullish v
  end.

(** What the specification asks for a malformed frame. *)
Definition discarded (f : frame) (d : dashboard) : Prop :=
  exec (ws_onmessage f) d = d ∧ returns (ws_onmessage f) d = true.

Definition sales_replaced (snap : snapshot) (d : dashboard) : dashboard :=
  match chartInstances d !! "sales", sales_chart_data snap with
  | Some _, Some (new_labels, values) =>
      set_chartInstances (<["sales" := Chart new_labels values]> (chartInstances d)) d
  | _, _ => d
  end.

Definition replaced (key : string) (field : option (list jsval)) (d : dashboard) : dashboard :=
  match chartInstances d !! key, field with
  | Some c, Some values =>
      set_chartInstances (<[key := Chart (labels c) values]> (chartInstances d)) d
  | _, _ => d
  end.

Definition charts_updated (snap : snapshot) (d : dashboard) : dashboard :=
  replaced "inventory" (inventory_status snap)
    (replaced "customer" (customer_growth snap)
       (replaced "revenue" (revenue_distribution snap) (sales_replaced snap d))).

Definition poll_failed (d : dashboard) : dashboard :=
  set_loading false
    (set_toasts (toasts d ++ [Toast "Failed to load dashboard data" "danger"]) d).

Definition long_snapshot : snapshot :=
  Snapshot (RealTimeData (CNum 8) (CNum 3) (CNum 0))
    (Some ((λ n, DataLabel (JNumber n)) <$> seqZ 1 21, JNumber <$> seqZ 1 21))
    None None None.

(** One tick of the polling timer whose fetch is rejected. *)
Definition failed_poll (h : positive) : list event :=
  [IntervalFires h; FetchSettles 0 None].

(** What the specification asks of a failed poll: an entry in the queue of
    the store. *)
Definition reported_in_queue (d d' : dashboard) : Prop :=
  ∃ entry : notification, notifications d' = take 10 (entry :: notifications d).

(** What the specification asks of a teardown: no timer left, no channel
    left open. *)
Definition torn_down (d : dashboard) : Prop :=
  timeouts d = [] ∧ intervals d = [] ∧ Forall (λ s, s = Closed) (sockets d).

Definition interval_cleared (d : dashboard) : dashboard :=
  match updateInterval d with
  | Some h => set_intervals (filter (λ h', h' ≠ h) (intervals d)) d
  | None => d
  end.

(** The dashboard that showed a notification at 1000 ms and lost its channel
    at 2000 ms: an expiry and a reconnection are pending. *)
Definition retrying : dashboard :=
  run [TimePasses 1000;
       SocketMessage 0 (Parses (message_of "product_updated" (JObject [("name", JString "Mug")])));
       TimePasses 2000;
       SocketCloses 0]
      live.

Definition mug : jsval := JObject [("name", JString "Mug")].

(** Twenty-two orders, one per millisecond, of amounts 1 to 22. *)
Definition orders_22 : list (Z * jsval) :=
  (λ n, (n, JObject [("amount", JNumber n)])) <$> seqZ 1 22.

(** A computation that leaves the loading flag as it found it, whether it
    returns or throws. *)
Definition keeps_loading {A : Type} (m : js A) : Prop :=
  ∀ d : dashboard, loading (m d).2 = loading d.

(** The events that send a fetch or settle one. *)
Definition fetch_event (e : event) : bool :=
  match e with
  | WillStart | IntervalFires _ | FetchSettles _ _ => true
  | _ => false
  end.

(** * The rest of the component *)

(** ** Navigation

    The window action a click hands to the action service ([doAction]); the
    service itself is the framework's. *)
Record act_window : Type := ActWindow {
  res_model : string;
  view_mode : string;
  target : string;
  context : list (string * jsval);
}.

(** [classList.contains(cls)] *)
Definition contains (cls : string) (classList : list string) : bool :=
  bool_decide (cls ∈ classList).

(** The conditional chain of [handleKPIClick]. *)
Definition cardType (classList : list string) : string :=
  if contains "o_kpi_sales" classList then "sales"
  else if contains "o_kpi_orders" classList then "orders"
  else if contains "o_kpi_customers" classList then "customers"
  else if contains "o_kpi_products" classList then "products"
  else if contains "o_kpi_queue" classList then "queue"
  else "errors".

(** [date_from] and [date_to] are what [realTimeData] holds under these
    names when the click comes. *)
Definition navigateToDetailView (type : string) (date_from date_to : jsval) : act_window :=
  ActWindow "shopify.analytics" "form" "current"
    [("default_analytics_type", JString type);
     ("default_date_from", date_from);
     ("default_date_to", date_to)].

Definition handleKPIClick (classList : list string) (date_from date_to : jsval) : act_window :=
  navigateToDetailView (cardType classList) date_from date_to.

Definition navigateToOrders : act_window :=
  ActWindow "shopify.order" "list,form" "current" [].

Definition navigateToProducts : act_window :=
  ActWindow "shopify.product" "list,form" "current" [].

Definition navigateToCustomers : act_window :=
  ActWindow "shopify.customer" "list,form" "current" [].

Definition navigateToQueue : act_window :=
  ActWindow "shopify.queue.job" "list,form" "current" [].

Definition navigateToLogs : act_window :=
  ActWindow "shopify.log" "list,form" "current" [].

Definition navigateToCron : act_window :=
  ActWindow "shopify.cron" "list,form" "current" [].

(** The switch of [handleQuickAction] on [button.dataset.action], which is
    absent when the button has no such attribute; [None] is the fall through
    the switch, where nothing is opened. *)
Definition handleQuickAction (action : option string) : option act_window :=
  match action with
  | None => None
  | Some a =>
      if String.eqb a "orders" then Some navigateToOrders
      else if String.eqb a "products" then Some navigateToProducts
      else if String.eqb a "customers" then Some navigateToCustomers
      else if String.eqb a "queue" then Some navigateToQueue
      else if String.eqb a "logs" then Some navigateToLogs
      else if String.eqb a "cron" then Some navigateToCron
      else None
  end.

(** ** The health display

    The class [updateSystemHealthDisplay] gives the element of a metric
    whose value is the number [value]. *)
Definition health_class (value : Z) : string :=
  if 90 <? value then "o_health_good"
  else if 70 <? value then "o_health_warning"
  else "o_health_error".

(** ** More vocabulary *)

Definition customer_notice (payload : jsval) : notification_arg :=
  NotificationArg "success" "Customer Synced"
    (Template ("Customer " +:+ dquote) (prop_of "name" payload) (dquote +:+ " synced"))
    "fa-users" None.

Definition error_notice (payload : jsval) : notification_arg :=
  NotificationArg "danger" "Error Occurred" (Raw (prop_of "message" payload))
    "fa-exclamation-triangle" None.

Definition count_customer (d : dashboard) : dashboard :=
  set_realTimeData
    (RealTimeData (order_count (realTimeData d))
                  (increment (customer_count (realTimeData d)))
                  (error_count (realTimeData d))) d.

Definition count_error (d : dashboard) : dashboard :=
  set_realTimeData
    (RealTimeData (order_count (realTimeData d))
                  (customer_count (realTimeData d))
                  (increment (error_count (realTimeData d)))) d.

(** The entry a push stores. *)
Definition entry_at (p : Z * notification_arg) : notification := entry_of p.2 p.1.

(** A message of a given type received when the clock reads what it
    reads. *)
Definition receive (type : string) (payload : jsval) : js unit :=
  ws_onmessage (Parses (message_of type payload)).


(** How many elements of a list pass a test. *)
Fixpoint tally {A : Type} (p : A → bool) (l : list A) : nat :=
  match l with
  | [] => 0%nat
  | x :: l' => ((if p x then 1 else 0) + tally p l')%nat
  end.

Definition is_open_or_connecting (s : ready_state) : bool :=
  match s with
  | Closed => false
  | _ => true
  end.

Definition is_reconnect (p : Z * timer_action) : bool :=
  match p.2 with
  | Reconnect => true
  | _ => false
  end.

Definition is_first_load (o : fetch_origin) : bool :=
  match o with
  | FromWillStart => true
  | FromInterval => false
  end.

Definition is_start (e : event) : bool :=
  match e with
  | WillStart => true
  | _ => false
  end.

(** The channels the component has or is about to have: the sockets not yet
    closed, the reconnections pending, and the first loads in flight, each
    of which ends by opening a socket. *)
Definition channels (d : dashboard) : nat :=
  (tally is_open_or_connecting (sockets d) + tally is_reconnect (timeouts d) +
   tally is_first_load (inflight d))%nat.

(** A computation that leaves an observation of the state as it found it,
    whether it returns or throws. *)
Definition preserves {B A : Type} (obs : dashboard → B) (m : js A) : Prop :=
  ∀ d : dashboard, obs (m d).2 = obs d.

(** The chart each canvas is given by [initializeCharts]. *)
Definition initial_charts : list (string * string * chart) :=
  [("sales_chart", "sales", Chart [] []);
   ("revenue_chart", "revenue",
    Chart (text_labels ["Online Sales"; "In-Store Sales"; "Wholesale"])
          (JNumber <$> [65; 25; 10]));
   ("customer_chart", "customer",
    Chart (text_labels ["Jan"; "Feb"; "Mar"; "Apr"; "May"; "Jun"])
          (JNumber <$> [120; 150; 180; 200; 220; 250]));
   ("inventory_chart", "inventory",
    Chart (text_labels ["In Stock"; "Low Stock"; "Out of Stock"])
          (JNumber <$> [70; 20; 10]))].

(** The dashboard that showed a product notice at 1000 ms and a customer
    notice at 2000 ms. *)
Definition two_notices : dashboard :=
  run [TimePasses 1000; SocketMessage 0 (Parses (message_of "product_updated" mug));
       TimePasses 2000; SocketMessage 0 (Parses (message_of "customer_synced" mug))]
      live.

(** Twelve pushes of the same notice, one per millisecond. *)
Definition pushes_12 : list (Z * notification_arg) :=
  (λ t, (t, product_notice mug)) <$> seqZ 1 12.

(** The shape the four [initialize...Chart] functions share. *)
Definition init_chart (canvas key : string) (c : chart) : js unit :=
  ctx ← getElementById canvas; if (ctx : bool) then new_Chart key c else mret tt.

(** The state [init_chart] leaves on a dashboard that holds no chart under
    the name. *)
Definition with_chart (canvas key : string) (c : chart) (d : dashboard) : dashboard :=
  if bool_decide (canvas ∈ element_ids (document d))
  then set_chartInstances (<[key := c]> (chartInstances d)) d
  else d.

(** The state the first mounting leaves. *)
Definition mounted (d : dashboard) : dashboard :=
  foldl (λ d t, with_chart t.1.1 t.1.2 t.2 d) d initial_charts.


(** What the loading flag is about: the flag and the fetches in flight. *)
Definition fetch_state (d : dashboard) : bool * list fetch_origin :=
  (loading d, inflight d).

(** * Properties *)

(** ** Unfolding the monad *)

Ltac js_unfold :=
  unfold exec, returns, mbind, js_bind, mret, js_ret, modify, get, throw,
         try_catch, finally.

Lemma exec_bind {A B : Type} (m : js A) (f : A → js B) (d : dashboard) (a : A) (d' : dashboard) :
  m d = (Returned a, d') → (m ≫= f) d = f a d'.
Proof. intros H. unfold mbind, js_bind. by rewrite H. Qed.

(** [x++] is exact on the integers from -2^53 up to 2^53 - 1. *)
Lemma increment_exact (n : Z) :
  - two_53 ≤ n < two_53 → increment (CNum n) = CNum (n + 1).
Proof.
  intros Hn. unfold increment, round_to_double.
  rewrite (proj2 (Z.leb_le _ _)); [done|]. unfold two_53 in *. lia.
Qed.

(** ** The notification queue *)

Lemma findIndex_none {A : Type} (p : A → bool) (l : list A) :
  (∀ x, x ∈ l → p x = false) → findIndex p l = None.
Proof.
  induction l as [|x l IH]; intros H; simpl; [done|].
  rewrite (H x) by left. rewrite IH; [done|]. intros y Hy. apply H. by right.
Qed.

Lemma removeNotification_undefined (d : dashboard) :
  removeNotification None d = (Returned tt, d).
Proof.
  unfold removeNotification. js_unfold.
  by rewrite findIndex_none.
Qed.

(** What one call of [addNotification] does, in one equation. *)
Lemma addNotification_run (a : notification_arg) (d : dashboard) :
  addNotification a d = (Returned tt, pushed a d).
Proof.
  unfold addNotification, setTimeout, pushed. js_unfold. cbn -[take].
  case_bool_decide as Hlen; cbn -[take].
  - done.
  - rewrite (take_ge (entry_of a (clock d) :: notifications d)); [done|].
    simpl in *. lia.
Qed.

Lemma push_at_notifications (p : Z * notification_arg) (d : dashboard) :
  notifications (exec (push_at p) d) = take 10 (entry_of p.2 p.1 :: notifications d).
Proof.
  unfold push_at, exec.
  rewrite (exec_bind _ _ d tt (set_clock p.1 d)) by done.
  by rewrite addNotification_run.
Qed.

(** C1. After every push of any sequence of pushes, from any state, the queue
    holds at most 10 notifications and the notification just pushed is its
    first element. *)
Theorem addNotification_bounded_newest_first
    (earlier : list (Z * notification_arg)) (t : Z) (a : notification_arg) (d : dashboard) :
  returns (push_at (t, a)) (foldl (λ d p, exec (push_at p) d) d earlier) = true ∧
  (length (notifications
     (exec (push_at (t, a)) (foldl (λ d p, exec (push_at p) d) d earlier))) ≤ 10)%nat ∧
  head (notifications
     (exec (push_at (t, a)) (foldl (λ d p, exec (push_at p) d) d earlier))) =
    Some (entry_of a t).
Proof.
  rewrite push_at_notifications. split; [|split].
  - unfold push_at, returns.
    rewrite (exec_bind _ _ _ tt (set_clock t _)) by done.
    by rewrite addNotification_run.
  - rewrite length_take. lia.
  - done.
Qed.

Lemma forEach_harmless (l : list (Z * timer_action)) (d : dashboard) :
  Forall (λ p, harmless p = true) l →
  let r := forEach (λ p : Z * timer_action, run_timer p.2) l d in
  r.1 = Returned tt ∧
  notifications r.2 = notifications d ∧
  timeouts r.2 = timeouts d.
Proof.
  intros H. revert d. induction H as [|[due action] l Hh _ IH]; intros d; simpl.
  - done.
  - unfold mbind, js_bind.
    destruct action as [[k|]|]; [done| |]; simpl.
    + rewrite removeNotification_undefined. apply IH.
    + unfold setupWebSocket, modify. destruct (IH (set_sockets (sockets d ++ [Connecting]) d)) as (? & ? & ?).
      done.
Qed.

(** C2. A notification pushed without an id of its own, as every handler
    pushes it, outlives its expiry timer: the timer is set for 5000 ms, it
    fires, and the queue is what it was right after the push. *)
Theorem expiry_timer_removes_nothing (d : dashboard) (a : notification_arg) (eps : Z) :
  a_id a = None →
  Forall (λ p, harmless p = true) (timeouts d) →
  0 ≤ eps →
  (let d1 := exec (addNotification a) d in
   let d2 := exec (elapse (clock d + 5000 + eps)) d1 in
   (clock d + 5000, ExpireNotification None) ∈ timeouts d1 ∧
   ((clock d + 5000, ExpireNotification None) ∉ timeouts d2) ∧
   notifications d2 = notifications d1 ∧
   head (notifications d2) = Some (entry_of a (clock d))).
Proof.
  intros Hid Hd Heps d1 d2.
  assert (E1 : d1 = set_timeouts (timeouts d ++ [(clock d + 5000, ExpireNotification None)])
                 (set_notifications (take 10 (entry_of a (clock d) :: notifications d)) d)).
  { unfold d1, exec. rewrite addNotification_run. unfold pushed. by rewrite Hid. }
  assert (Hd1 : Forall (λ p, harmless p = true) (timeouts d1)).
  { rewrite E1. simpl. apply Forall_app. split; [done|]. by constructor. }
  assert (Hclock : clock d1 = clock d) by (by rewrite E1).
  set (now := Z.max (clock d1) (clock d + 5000 + eps)).
  assert (Hnow : now = clock d + 5000 + eps) by (unfold now; lia).
  pose proof (forEach_harmless
    (filter (λ p : Z * timer_action, (p.1 ≤ now)%Z) (timeouts d1))
    (set_timeouts (filter (λ p : Z * timer_action, ¬ (p.1 ≤ now)%Z) (timeouts d1))
       (set_clock now d1))) as Hrun.
  simpl in Hrun. destruct Hrun as (_ & Hn & Ht).
  { apply Forall_forall. intros p Hp. apply list_elem_of_filter in Hp as [_ Hp].
    revert p Hp. by apply Forall_forall. }
  assert (E2n : notifications d2 = notifications d1) by (exact Hn).
  assert (E2t : timeouts d2 = filter (λ p : Z * timer_action, ¬ (p.1 ≤ now)%Z) (timeouts d1))
    by (exact Ht).
  split; [|split; [|split]].
  - rewrite E1. simpl. apply elem_of_app. right. by left.
  - rewrite E2t. intros Hin. apply list_elem_of_filter in Hin as [Hlate _].
    simpl in Hlate. lia.
  - done.
  - rewrite E2n, E1. done.
Qed.

(** ** The sales series *)

Lemma get_prop_run (v : jsval) (k : string) (d : dashboard) :
  nullish v = false → get_prop v k d = (Returned (prop_of k v), d).
Proof. by destruct v. Qed.

Lemma keep_last_length {A : Type} (n : nat) (l : list A) :
  (length (keep_last n l) ≤ n)%nat.
Proof. unfold keep_last. rewrite length_drop. lia. Qed.

Lemma keep_last_all {A : Type} (n : nat) (l : list A) :
  (length l ≤ n)%nat → keep_last n l = l.
Proof. intros H. unfold keep_last. by replace (length l - n)%nat with 0%nat by lia. Qed.

Lemma keep_last_app {A : Type} (n : nat) (l r : list A) :
  keep_last n (keep_last n l ++ r) = keep_last n (l ++ r).
Proof.
  destruct (decide (length l ≤ n)%nat) as [Hle|Hgt].
  - by rewrite (keep_last_all n l).
  - unfold keep_last. rewrite !length_app, length_drop.
    replace (length l - (length l - n) + length r - n)%nat with (length r) by lia.
    replace (length l + length r - n)%nat with ((length l - n) + length r)%nat by lia.
    rewrite <- drop_drop. f_equal. rewrite drop_app_le by lia. done.
Qed.

Lemma shift_over_20_window (ls : list chart_label) (vs : list jsval)
    (l : chart_label) (v : jsval) :
  length ls = length vs → (length vs ≤ 20)%nat →
  shift_over_20 (Chart (ls ++ [l]) (vs ++ [v])) =
    Chart (keep_last 20 (ls ++ [l])) (keep_last 20 (vs ++ [v])).
Proof.
  intros Heq Hle. unfold shift_over_20, keep_last. simpl labels. simpl data.
  rewrite !length_app. simpl length.
  case_bool_decide as Hfull.
  - by replace (length ls + 1 - 20)%nat with 1%nat by lia;
       replace (length vs + 1 - 20)%nat with 1%nat by lia.
  - by replace (length ls + 1 - 20)%nat with 0%nat by lia;
       replace (length vs + 1 - 20)%nat with 0%nat by lia.
Qed.

(** What [updateSalesChart] does to an existing sales chart. *)
Lemma updateSalesChart_run (orderData : jsval) (d : dashboard) (c : chart) :
  chartInstances d !! "sales" = Some c →
  nullish orderData = false →
  updateSalesChart orderData d =
    (Returned tt,
     set_chartInstances
       (<["sales" := shift_over_20 (Chart (labels c ++ [TimeLabel (clock d)])
                                          (data c ++ [prop_of "amount" orderData]))]>
          (chartInstances d)) d).
Proof.
  intros Hc Hv. unfold updateSalesChart.
  rewrite (exec_bind _ _ d d d) by done. rewrite Hc.
  unfold set_chart at 1. rewrite (exec_bind _ _ d tt _) by done.
  rewrite (exec_bind _ _ _ (prop_of "amount" orderData) _) by (by apply get_prop_run).
  unfold set_chart at 1. rewrite (exec_bind _ _ _ tt _) by done.
  unfold shift_over_20. simpl labels. simpl data.
  case_bool_decide; unfold set_chart; js_unfold; cbn -[drop];
    by rewrite !insert_insert_eq.
Qed.

(** Without a sales chart the append is skipped. *)
Lemma updateSalesChart_absent (orderData : jsval) (d : dashboard) :
  chartInstances d !! "sales" = None → updateSalesChart orderData d = (Returned tt, d).
Proof.
  intros Hc. unfold updateSalesChart. rewrite (exec_bind _ _ d d d) by done. by rewrite Hc.
Qed.

(** Appends to a sales series that holds at most 20 points, one per
    label, leave it holding the last 20 of the points it held and the points
    appended, in the order they came; the series appended to from empty is
    the instance with nothing held before. *)
Theorem sales_series_sliding_window
    (points : list (Z * jsval)) (d : dashboard) (c : chart) :
  chartInstances d !! "sales" = Some c →
  length (labels c) = length (data c) →
  (length (data c) ≤ 20)%nat →
  Forall (λ p, nullish p.2 = false) points →
  ∃ c' : chart,
    chartInstances (foldl (λ d p, exec (append_at p) d) d points) !! "sales" = Some c' ∧
    data c' = keep_last 20 (data c ++ ((λ p, prop_of "amount" p.2) <$> points)) ∧
    labels c' = keep_last 20 (labels c ++ ((λ p, TimeLabel p.1) <$> points)) ∧
    (length (data c') ≤ 20)%nat.
Proof.
  intros Hc Heq Hle Hpoints. revert d c Hc Heq Hle.
  induction Hpoints as [|[t v] points Hv _ IH]; intros d c Hc Heq Hle.
  - exists c. simpl. rewrite !app_nil_r, !keep_last_all by lia. done.
  - simpl foldl.
    assert (Hstep : exec (append_at (t, v)) d =
      set_chartInstances
        (<["sales" := Chart (keep_last 20 (labels c ++ [TimeLabel t]))
                            (keep_last 20 (data c ++ [prop_of "amount" v]))]>
           (chartInstances d)) (set_clock t d)).
    { unfold append_at, exec. rewrite (exec_bind _ _ d tt (set_clock t d)) by done.
      cbv beta. cbn [fst snd].
      rewrite (updateSalesChart_run v (set_clock t d) c) by done.
      simpl. by rewrite shift_over_20_window. }
    rewrite Hstep.
    edestruct (IH (set_chartInstances
        (<["sales" := Chart (keep_last 20 (labels c ++ [TimeLabel t]))
                            (keep_last 20 (data c ++ [prop_of "amount" v]))]>
           (chartInstances d)) (set_clock t d)) (Chart (keep_last 20 (labels c ++ [TimeLabel t]))
                          (keep_last 20 (data c ++ [prop_of "amount" v]))))
      as (c' & Hc' & Hdata & Hlabels & Hlen).
    + simpl. apply lookup_insert_eq.
    + simpl. unfold keep_last. rewrite !length_drop, !length_app. simpl. lia.
    + simpl. apply keep_last_length.
    + exists c'. simpl in Hdata, Hlabels.
      rewrite keep_last_app, <- app_assoc in Hdata.
      rewrite keep_last_app, <- app_assoc in Hlabels. done.
Qed.




(** ** Messages of the push channel *)

Lemma dispatch_order_created (payload : jsval) (d : dashboard) :
  ws_onmessage (Parses (message_of "order_created" payload)) d = handleOrderCreated payload d.
Proof. reflexivity. Qed.

Lemma dispatch_product_updated (payload : jsval) (d : dashboard) :
  ws_onmessage (Parses (message_of "product_updated" payload)) d =
    handleProductUpdated payload d.
Proof. reflexivity. Qed.

Lemma handleOrderCreated_run (payload : jsval) (d : dashboard) :
  nullish payload = false →
  handleOrderCreated payload d =
    updateSalesChart payload (pushed (order_notice payload) (count_order d)).
Proof.
  intros Hp. unfold handleOrderCreated.
  rewrite (exec_bind _ _ d tt (count_order d)) by done.
  rewrite (exec_bind _ _ _ (prop_of "order_number" payload) (count_order d))
    by (by apply get_prop_run).
  rewrite (exec_bind _ _ _ tt (pushed (order_notice payload) (count_order d)))
    by apply addNotification_run.
  done.
Qed.

Lemma handleProductUpdated_run (payload : jsval) (d : dashboard) :
  nullish payload = false →
  handleProductUpdated payload d = (Returned tt, pushed (product_notice payload) d).
Proof.
  intros Hp. unfold handleProductUpdated.
  rewrite (exec_bind _ _ d (prop_of "name" payload) d) by (by apply get_prop_run).
  apply addNotification_run.
Qed.

(** C4, as the code has it. An [order_created] event whose payload carries an
    amount, dispatched while the order counter holds an integer from -2^53
    up to 2^53 - 1, where [++] is exact, adds exactly 1 to the counter and
    enqueues one notification of type success; where the sales chart exists
    it also appends one point with that amount to the sales series (the
    oldest point leaving when more than 20 labels are held), and where
    there is none the charts are left as they were. *)
Theorem order_created_effect_of_dispatch
    (d : dashboard) (fields : list (string * jsval)) (amount : jsval) (n : Z) :
  assoc "amount" fields = Some amount →
  order_count (realTimeData d) = CNum n →
  - two_53 ≤ n < two_53 →
  returns (ws_onmessage (Parses (message_of "order_created" (JObject fields)))) d = true ∧
  match chartInstances d !! "sales" with
  | Some _ =>
      order_created_effect amount d
        (exec (ws_onmessage (Parses (message_of "order_created" (JObject fields)))) d)
  | None =>
      counted_one d
        (exec (ws_onmessage (Parses (message_of "order_created" (JObject fields)))) d) ∧
      enqueued_one "success" d
        (exec (ws_onmessage (Parses (message_of "order_created" (JObject fields)))) d) ∧
      chartInstances
        (exec (ws_onmessage (Parses (message_of "order_created" (JObject fields)))) d) =
        chartInstances d
  end.
Proof.
  intros Hamount Hcount Hsafe.
  assert (Hcounted : ∀ charts timers queue,
    counted_one d (set_chartInstances charts
      (set_timeouts timers (set_notifications queue (count_order d))))).
  { intros. exists n. cbn -[increment]. by rewrite Hcount, increment_exact. }
  unfold returns, exec. rewrite dispatch_order_created, handleOrderCreated_run by done.
  destruct (chartInstances d !! "sales") as [c|] eqn:Hchart.
  - rewrite (updateSalesChart_run _ _ c) by done.
    split; [done|]. split; [apply Hcounted|]. split.
    + exists c, (TimeLabel (clock d)). split; [done|]. cbn -[increment].
      rewrite lookup_insert_eq. unfold prop_of. by rewrite Hamount.
    + by exists (entry_of (order_notice (JObject fields)) (clock d)).
  - rewrite updateSalesChart_absent by done.
    split; [done|]. split; [|split].
    + exists n. cbn -[increment]. by rewrite Hcount, increment_exact.
    + by exists (entry_of (order_notice (JObject fields)) (clock d)).
    + done.
Qed.

(** C4, as stated, fails between the first load and the mounting of the
    charts: the counter goes from 7 to 8 and the notification is enqueued,
    but there is no sales chart and no point is recorded.  Where the first
    load failed as well, the counter is absent and does not become a
    number; and a counter that holds 2^53 still holds 2^53 after the
    event. *)
Lemma order_created_before_mount :
  order_count (realTimeData awaiting_mount) = CNum 7 ∧
  order_count (realTimeData
    (exec (step (SocketMessage 0 (Parses (message_of "order_created" order_42))))
          awaiting_mount)) = CNum 8 ∧
  enqueued_one "success" awaiting_mount
    (exec (step (SocketMessage 0 (Parses (message_of "order_created" order_42))))
          awaiting_mount) ∧
  chartInstances
    (exec (step (SocketMessage 0 (Parses (message_of "order_created" order_42))))
          awaiting_mount) = ∅ ∧
  ¬ order_created_effect (JNumber 42) awaiting_mount
    (exec (step (SocketMessage 0 (Parses (message_of "order_created" order_42))))
          awaiting_mount) ∧
  order_count (realTimeData unloaded) = CUndefined ∧
  ¬ counted_one unloaded
    (exec (step (SocketMessage 0 (Parses (message_of "order_created" order_42))))
          unloaded) ∧
  order_count (realTimeData saturated) = CNum two_53 ∧
  order_count (realTimeData
    (exec (step (SocketMessage 0 (Parses (message_of "order_created" order_42))))
          saturated)) = CNum two_53 ∧
  ¬ counted_one saturated
    (exec (step (SocketMessage 0 (Parses (message_of "order_created" order_42))))
          saturated).
Proof.
  split; [reflexivity|]. split; [reflexivity|].
  split; [by exists (entry_of (order_notice order_42) 0)|].
  split; [reflexivity|]. split; [|split; [reflexivity|]].
  - intros (_ & (c & l & Hc & _) & _). discriminate Hc.
  - split; [|split; [reflexivity|split; [reflexivity|]]].
    + intros (n & Hn & _). discriminate Hn.
    + intros (n & Hn & Hn'). vm_compute in Hn, Hn'.
      injection Hn as <-. discriminate Hn'.
Qed.

(** C10, as the code has it. A [product_updated] event, whatever its
    payload, leaves the counters, the charts, the health record and the
    loading flag as they were.  With a payload, what it leaves behind is one
    notification of type info at the head of the queue (and, in the browser,
    the expiry timer set for it); with a payload that is [undefined] or
    [null] the handler throws on reading it, before anything is enqueued,
    and the state is what it was. *)
Theorem product_updated_only_notifies (d : dashboard) (payload : jsval) :
  realTimeData (exec (ws_onmessage (Parses (message_of "product_updated" payload))) d) =
    realTimeData d ∧
  chartInstances (exec (ws_onmessage (Parses (message_of "product_updated" payload))) d) =
    chartInstances d ∧
  systemHealth (exec (ws_onmessage (Parses (message_of "product_updated" payload))) d) =
    systemHealth d ∧
  loading (exec (ws_onmessage (Parses (message_of "product_updated" payload))) d) =
    loading d ∧
  if nullish payload
  then returns (ws_onmessage (Parses (message_of "product_updated" payload))) d = false ∧
       exec (ws_onmessage (Parses (message_of "product_updated" payload))) d = d
  else returns (ws_onmessage (Parses (message_of "product_updated" payload))) d = true ∧
       exec (ws_onmessage (Parses (message_of "product_updated" payload))) d =
         pushed (product_notice payload) d ∧
       enqueued_one "info" d
         (exec (ws_onmessage (Parses (message_of "product_updated" payload))) d).
Proof.
  destruct (nullish payload) eqn:Hp.
  - by destruct payload.
  - unfold returns, exec.
    rewrite dispatch_product_updated, handleProductUpdated_run by done.
    repeat split. by exists (entry_of (product_notice payload) (clock d)).
Qed.

(** C10, as stated, fails on a [product_updated] message without payload:
    the handler throws on reading the name of the product and nothing is
    enqueued. *)
Lemma product_updated_without_payload :
  step (SocketMessage 0 (Parses (JObject [("type", JString "product_updated")]))) live =
    (Thrown TypeError, live) ∧
  notifications live = [] ∧
  ¬ enqueued_one "info" live
      (exec (step (SocketMessage 0 (Parses (JObject [("type", JString "product_updated")]))))
            live).
Proof.
  repeat split. intros (entry & _ & H). discriminate H.
Qed.

(** ** Malformed messages *)

Lemma handleRealTimeUpdate_unknown (v : jsval) (d : dashboard) :
  nullish v = false →
  type_known (prop_of "type" v) = false →
  handleRealTimeUpdate v d = (Returned tt, d).
Proof.
  intros Hv Hk. unfold handleRealTimeUpdate.
  rewrite (exec_bind _ _ d (prop_of "type" v) d) by (by apply get_prop_run).
  unfold type_known in Hk.
  repeat (apply orb_false_elim in Hk as [Hk ?]).
  by repeat match goal with H : is_string _ _ = false |- _ => rewrite H; clear H end.
Qed.

(** C8, as the code has it. A malformed frame changes nothing in the state;
    the callback returns for a parsed value of unknown type other than
    [null], and throws for a frame that is not JSON and for [null]. *)
Theorem malformed_message_leaves_state (f : frame) (d : dashboard) :
  malformed f = true →
  exec (ws_onmessage f) d = d ∧
  returns (ws_onmessage f) d = negb (escapes f).
Proof.
  intros Hm. destruct f as [|v]; [done|].
  simpl in Hm. apply negb_true_iff in Hm.
  destruct (nullish v) eqn:Hv.
  - by destruct v.
  - unfold exec, returns, ws_onmessage. simpl JSON_parse.
    rewrite (exec_bind _ _ d v d) by done.
    rewrite handleRealTimeUpdate_unknown by done. simpl. by rewrite Hv.
Qed.

(** C8, as stated, fails on a frame that is not JSON: the state is kept, but
    the SyntaxError of [JSON.parse] leaves the callback. *)
Lemma unparseable_frame_throws :
  ws_onmessage Unparseable live = (Thrown SyntaxError, live) ∧
  returns (step (SocketMessage 0 Unparseable)) live = false ∧
  ¬ discarded Unparseable live.
Proof.
  repeat split. intros [_ H]. discriminate H.
Qed.

(** ** Snapshots *)

Lemma replace_dataset_run (key : string) (field : option (list jsval)) (d : dashboard) :
  replace_dataset key field d = (Returned tt, replaced key field d).
Proof.
  unfold replace_dataset, replaced, set_chart. js_unfold.
  by destruct (chartInstances d !! key), field.
Qed.

Lemma updateCharts_run (snap : snapshot) (d : dashboard) :
  updateCharts snap d = (Returned tt, charts_updated snap d).
Proof.
  unfold updateCharts, charts_updated.
  rewrite (exec_bind _ _ d d d) by done.
  rewrite (exec_bind _ _ d tt (sales_replaced snap d)).
  2:{ unfold sales_replaced, set_chart.
      destruct (chartInstances d !! "sales"), (sales_chart_data snap) as [[??]|]; done. }
  unfold updateRevenueChart, updateCustomerChart, updateInventoryChart.
  rewrite (exec_bind _ _ _ tt _) by apply replace_dataset_run.
  rewrite (exec_bind _ _ _ tt _) by apply replace_dataset_run.
  apply replace_dataset_run.
Qed.

Lemma replaced_other (key k : string) (field : option (list jsval)) (d : dashboard) :
  k ≠ key → chartInstances (replaced key field d) !! k = chartInstances d !! k.
Proof.
  intros Hk. unfold replaced.
  destruct (chartInstances d !! key), field; simpl; try done.
  by rewrite lookup_insert_ne.
Qed.

Lemma loadDashboardData_rejected (d : dashboard) :
  loadDashboardData_settled None d = (Returned tt, poll_failed d).
Proof. reflexivity. Qed.

Lemma loadDashboardData_resolved (snap : snapshot) (d : dashboard) :
  loadDashboardData_settled (Some snap) d =
    (Returned tt,
     set_loading false (charts_updated snap (set_realTimeData (s_counts snap) d))).
Proof.
  unfold loadDashboardData_settled, finally, try_catch.
  rewrite (exec_bind _ _ d snap d) by done.
  rewrite (exec_bind _ _ d tt (set_realTimeData (s_counts snap) d)) by done.
  by rewrite updateCharts_run.
Qed.

(** C5, as the code has it. A snapshot that carries a sales series, arriving
    while the sales chart exists, puts the whole supplied series in the
    chart: every label and every value, in the order supplied, however many
    there are. *)
Theorem snapshot_replaces_whole_series
    (d : dashboard) (c : chart) (snap : snapshot)
    (new_labels : list chart_label) (values : list jsval) :
  chartInstances d !! "sales" = Some c →
  sales_chart_data snap = Some (new_labels, values) →
  returns (loadDashboardData_settled (Some snap)) d = true ∧
  chartInstances (exec (loadDashboardData_settled (Some snap)) d) !! "sales" =
    Some (Chart new_labels values).
Proof.
  intros Hc Hs. unfold returns, exec. rewrite loadDashboardData_resolved.
  split; [done|]. simpl. unfold charts_updated.
  rewrite !replaced_other by done.
  unfold sales_replaced. simpl. rewrite Hc, Hs. simpl. apply lookup_insert_eq.
Qed.

(** C5, as stated, fails on a snapshot of 21 points: the chart holds all 21
    afterwards, not the last 20. *)
Lemma long_snapshot_kept_whole :
  let d' := run [IntervalFires 1; FetchSettles 0 (Some long_snapshot)] live in
  ∃ c' : chart,
    chartInstances d' !! "sales" = Some c' ∧
    data c' = JNumber <$> seqZ 1 21 ∧
    length (data c') = 21%nat ∧
    data c' ≠ keep_last 20 (JNumber <$> seqZ 1 21).
Proof.
  intros d'.
  exists (Chart ((λ n, DataLabel (JNumber n)) <$> seqZ 1 21) (JNumber <$> seqZ 1 21)).
  repeat split. intros H. vm_compute in H. discriminate H.
Qed.

(** ** Polling *)

Lemma run_app (es1 es2 : list event) (d : dashboard) :
  run (es1 ++ es2) d = run es2 (run es1 d).
Proof. apply foldl_app. Qed.

Lemma failed_poll_run (h : positive) (d : dashboard) :
  h ∈ intervals d → inflight d = [] →
  run (failed_poll h) d =
    poll_failed (set_inflight [] (set_inflight [FromInterval] (set_loading true d))).
Proof.
  intros Hh Hin. unfold run, failed_poll. simpl foldl.
  assert (E1 : exec (step (IntervalFires h)) d =
               set_inflight [FromInterval] (set_loading true d)).
  { unfold exec, step. rewrite (exec_bind _ _ d d d) by done.
    rewrite bool_decide_eq_true_2 by done.
    unfold loadDashboardData. js_unfold. simpl. by rewrite Hin. }
  rewrite E1. reflexivity.
Qed.

(** C7, as the code has it. After any number of consecutive failed polls the
    polling timer is still set and its next tick sends a fetch; each failure
    made one call of the framework's notification service, of type danger,
    and the queue of the store is what it was. *)
Theorem polling_survives_failures (k : nat) (h : positive) (d : dashboard) :
  h ∈ intervals d →
  inflight d = [] →
  intervals (run (concat (replicate k (failed_poll h))) d) = intervals d ∧
  toasts (run (concat (replicate k (failed_poll h))) d) =
    toasts d ++ replicate k (Toast "Failed to load dashboard data" "danger") ∧
  notifications (run (concat (replicate k (failed_poll h))) d) = notifications d ∧
  inflight (exec (step (IntervalFires h)) (run (concat (replicate k (failed_poll h))) d)) =
    [FromInterval].
Proof.
  revert d. induction k as [|k IH]; intros d Hh Hin.
  - simpl. rewrite app_nil_r. repeat split.
    unfold exec, step. rewrite (exec_bind _ _ d d d) by done.
    rewrite bool_decide_eq_true_2 by done.
    unfold loadDashboardData. js_unfold. simpl. by rewrite Hin.
  - replace (concat (replicate (S k) (failed_poll h)))
      with (failed_poll h ++ concat (replicate k (failed_poll h))) by done.
    rewrite run_app, failed_poll_run by done.
    edestruct (IH (poll_failed (set_inflight [] (set_inflight [FromInterval] (set_loading true d)))))
      as (Hi & Ht & Hn & Hf); [done|done|].
    rewrite Hi, Ht, Hn, Hf. simpl. rewrite <- app_assoc. done.
Qed.

(** C7, as stated, fails on the route of the report: a failed poll leaves
    the queue of the store empty and calls the notification service. *)
Lemma failed_poll_not_in_queue :
  notifications (run (failed_poll 1) live) = [] ∧
  toasts (run (failed_poll 1) live) = [Toast "Failed to load dashboard data" "danger"] ∧
  ¬ reported_in_queue live (run (failed_poll 1) live).
Proof.
  repeat split. intros [entry H]. discriminate H.
Qed.

(** ** The loading flag *)

Lemma keeps_loading_ret {A : Type} (a : A) : keeps_loading (mret a).
Proof. by intros d. Qed.

Lemma keeps_loading_throw {A : Type} (e : exn) : keeps_loading (throw e : js A).
Proof. by intros d. Qed.

Lemma keeps_loading_get : keeps_loading get.
Proof. by intros d. Qed.

Lemma keeps_loading_modify (f : dashboard → dashboard) :
  (∀ d, loading (f d) = loading d) → keeps_loading (modify f).
Proof. intros H d. apply H. Qed.

Lemma keeps_loading_bind {A B : Type} (m : js A) (f : A → js B) :
  keeps_loading m → (∀ a, keeps_loading (f a)) → keeps_loading (m ≫= f).
Proof.
  intros Hm Hf d. unfold mbind, js_bind. specialize (Hm d).
  destruct (m d) as [[a|e] d1]; simpl in *; [|done].
  by rewrite Hf.
Qed.

Lemma keeps_loading_forEach {A : Type} (f : A → js unit) (l : list A) :
  (∀ x, keeps_loading (f x)) → keeps_loading (forEach f l).
Proof.
  intros Hf. induction l as [|x l IH]; simpl.
  - apply keeps_loading_ret.
  - apply keeps_loading_bind; [apply Hf | by intros _].
Qed.

Create HintDb keeps.

#[local] Hint Resolve keeps_loading_ret keeps_loading_throw keeps_loading_get : keeps.

(** Splits a computation along its binds, its branches and its loops, and
    closes the leaves with the frame lemmas known so far. *)
Ltac keeps :=
  repeat first
    [ solve [eauto with keeps]
    | apply keeps_loading_bind; [|intros ?]
    | apply keeps_loading_forEach; intros ?
    | apply keeps_loading_modify; intros ?; reflexivity
    | case_match ].

Lemma keeps_loading_get_prop (v : jsval) (k : string) : keeps_loading (get_prop v k).
Proof. unfold get_prop. keeps. Qed.

Lemma keeps_loading_setTimeout (action : timer_action) (delay : Z) :
  keeps_loading (setTimeout action delay).
Proof. unfold setTimeout. keeps. Qed.

Lemma keeps_loading_set_chart (key : string) (c : chart) : keeps_loading (set_chart key c).
Proof. unfold set_chart. keeps. Qed.

#[local] Hint Resolve keeps_loading_get_prop keeps_loading_setTimeout
  keeps_loading_set_chart : keeps.

Lemma keeps_loading_removeNotification (id : option Z) :
  keeps_loading (removeNotification id).
Proof. unfold removeNotification. keeps. Qed.

Lemma keeps_loading_addNotification (a : notification_arg) :
  keeps_loading (addNotification a).
Proof. unfold addNotification. keeps. Qed.

Lemma keeps_loading_updateSalesChart (orderData : jsval) :
  keeps_loading (updateSalesChart orderData).
Proof. unfold updateSalesChart. keeps. Qed.

Lemma keeps_loading_updateSystemHealthDisplay : keeps_loading updateSystemHealthDisplay.
Proof. unfold updateSystemHealthDisplay. keeps. Qed.

Lemma keeps_loading_setupWebSocket : keeps_loading setupWebSocket.
Proof. unfold setupWebSocket. keeps. Qed.

#[local] Hint Resolve keeps_loading_removeNotification keeps_loading_addNotification
  keeps_loading_updateSalesChart keeps_loading_updateSystemHealthDisplay
  keeps_loading_setupWebSocket : keeps.

Lemma keeps_loading_handleRealTimeUpdate (v : jsval) :
  keeps_loading (handleRealTimeUpdate v).
Proof.
  unfold handleRealTimeUpdate, handleOrderCreated, handleProductUpdated,
    handleCustomerSynced, handleErrorOccurred, handleSystemHealthUpdate.
  keeps.
Qed.

Lemma keeps_loading_ws_onmessage (f : frame) : keeps_loading (ws_onmessage f).
Proof.
  unfold ws_onmessage, JSON_parse.
  apply keeps_loading_bind; [keeps | intros v; apply keeps_loading_handleRealTimeUpdate].
Qed.

Lemma keeps_loading_onMounted : keeps_loading onMounted.
Proof.
  unfold onMounted, initializeCharts, initializeSalesChart, initializeRevenueChart,
    initializeCustomerChart, initializeInventoryChart, getElementById, setupEventListeners.
  keeps.
Qed.

Lemma keeps_loading_elapse (t : Z) : keeps_loading (elapse t).
Proof. unfold elapse, run_timer. keeps. Qed.

Lemma keeps_loading_willUnmount : keeps_loading willUnmount.
Proof. unfold willUnmount, clearInterval. keeps. Qed.

#[local] Hint Resolve keeps_loading_ws_onmessage keeps_loading_onMounted
  keeps_loading_elapse keeps_loading_willUnmount : keeps.

(** Every event that neither sends a fetch nor settles one leaves the flag
    alone. *)
Lemma step_keeps_loading (e : event) :
  fetch_event e = false → keeps_loading (step e).
Proof.
  intros He. unfold step. destruct e; try discriminate He;
    unfold ws_onopen, ws_onerror, ws_onclose; keeps.
Qed.

(** C9, as stated, fails on the first tick of the polling timer: the flag,
    lowered since the first load, is raised again. *)
Lemma background_poll_raises_loading :
  loading live = false ∧
  1%positive ∈ intervals live ∧
  loading (exec (step (IntervalFires 1)) live) = true ∧
  loading (exec (step (IntervalFires 1)) live) ≠ loading live.
Proof.
  repeat split; [by left | done].
Qed.

(** ** Teardown *)

Lemma willUnmount_run (d : dashboard) :
  willUnmount d = (Returned tt, set_chartInstances ∅ (interval_cleared d)).
Proof.
  unfold willUnmount, interval_cleared, clearInterval. js_unfold.
  by destruct (updateInterval d).
Qed.

(** C6, as the code has it. Teardown clears the polling timer it holds a
    handle of and empties the chart registry; the pending timeouts and the
    sockets are as they were before it. *)
Theorem willUnmount_clears_polling_only (d : dashboard) :
  returns willUnmount d = true ∧
  intervals (exec willUnmount d) =
    match updateInterval d with
    | Some h => filter (λ h', h' ≠ h) (intervals d)
    | None => intervals d
    end ∧
  chartInstances (exec willUnmount d) = ∅ ∧
  timeouts (exec willUnmount d) = timeouts d ∧
  sockets (exec willUnmount d) = sockets d.
Proof.
  unfold returns, exec. rewrite willUnmount_run. unfold interval_cleared.
  by destruct (updateInterval d).
Qed.

(** C6, as stated, fails: teardown while a retry is pending leaves the
    expiry and the retry in the timer table, the retry fires afterwards and
    opens a channel; teardown while the channel is open leaves it open. *)
Lemma teardown_leaves_timers_and_channel :
  timeouts (run [WillUnmount] retrying) =
    [(6000, ExpireNotification None); (7000, Reconnect)] ∧
  intervals (run [WillUnmount] retrying) = [] ∧
  sockets (run [WillUnmount; TimePasses 7000] retrying) = [Closed; Connecting] ∧
  sockets (run [WillUnmount] live) = [Open] ∧
  ¬ torn_down (run [WillUnmount] retrying) ∧
  ¬ torn_down (run [WillUnmount] live).
Proof.
  repeat split.
  - intros (H & _). discriminate H.
  - intros (_ & _ & H). apply Forall_cons in H as [H _]. discriminate H.
Qed.

(** ** The theorems at work on the scenes

    Each theorem above that has premises, applied to the dashboard [live]
    (or to a frame, a snapshot or a run of orders on it), with its premises
    checked by evaluation. *)

Lemma expiry_timer_removes_nothing_on_live :
  a_id (product_notice mug) = None ∧
  Forall (λ p, harmless p = true) (timeouts live) ∧
  0 ≤ 1 ∧
  (clock live + 5000, ExpireNotification None) ∈
    timeouts (exec (addNotification (product_notice mug)) live) ∧
  ((clock live + 5000, ExpireNotification None) ∉
    timeouts (exec (elapse (clock live + 5000 + 1))
                (exec (addNotification (product_notice mug)) live))) ∧
  notifications (exec (elapse (clock live + 5000 + 1))
                   (exec (addNotification (product_notice mug)) live)) =
    notifications (exec (addNotification (product_notice mug)) live) ∧
  head (notifications (exec (elapse (clock live + 5000 + 1))
                         (exec (addNotification (product_notice mug)) live))) =
    Some (entry_of (product_notice mug) (clock live)).
Proof.
  split; [reflexivity|]. split; [vm_compute; constructor|]. split; [lia|].
  apply (expiry_timer_removes_nothing live (product_notice mug) 1);
    [reflexivity | vm_compute; constructor | lia].
Defined.

Lemma sales_series_sliding_window_on_live :
  chartInstances live !! "sales" = Some (Chart [] []) ∧
  length (labels (Chart [] [])) = length (data (Chart [] [])) ∧
  (length (data (Chart [] [])) ≤ 20)%nat ∧
  Forall (λ p : Z * jsval, nullish p.2 = false) orders_22 ∧
  ∃ c' : chart,
    chartInstances (foldl (λ d p, exec (append_at p) d) live orders_22) !! "sales" = Some c' ∧
    data c' = keep_last 20 (data (Chart [] []) ++ ((λ p, prop_of "amount" p.2) <$> orders_22)) ∧
    labels c' = keep_last 20 (labels (Chart [] []) ++ ((λ p, TimeLabel p.1) <$> orders_22)) ∧
    (length (data c') ≤ 20)%nat.
Proof.
  split; [reflexivity|]. split; [reflexivity|]. split; [simpl; lia|].
  split; [vm_compute; repeat constructor|].
  apply (sales_series_sliding_window orders_22 live (Chart [] []));
    [reflexivity | reflexivity | simpl; lia | vm_compute; repeat constructor].
Defined.

Lemma order_created_effect_on_live :
  assoc "amount" [("order_number", JNumber 1001); ("amount", JNumber 42)] = Some (JNumber 42) ∧
  order_count (realTimeData live) = CNum 7 ∧
  - two_53 ≤ 7 < two_53 ∧
  returns (ws_onmessage (Parses (message_of "order_created" order_42))) live = true ∧
  order_created_effect (JNumber 42) live
    (exec (ws_onmessage (Parses (message_of "order_created" order_42))) live).
Proof.
  split; [reflexivity|]. split; [reflexivity|]. split; [unfold two_53; lia|].
  apply (order_created_effect_of_dispatch live
           [("order_number", JNumber 1001); ("amount", JNumber 42)] (JNumber 42) 7);
    [reflexivity | reflexivity | unfold two_53; lia].
Defined.

Lemma snapshot_replaces_whole_series_on_live :
  chartInstances live !! "sales" = Some (Chart [] []) ∧
  sales_chart_data long_snapshot =
    Some ((λ n, DataLabel (JNumber n)) <$> seqZ 1 21, JNumber <$> seqZ 1 21) ∧
  returns (loadDashboardData_settled (Some long_snapshot)) live = true ∧
  chartInstances (exec (loadDashboardData_settled (Some long_snapshot)) live) !! "sales" =
    Some (Chart ((λ n, DataLabel (JNumber n)) <$> seqZ 1 21) (JNumber <$> seqZ 1 21)).
Proof.
  split; [reflexivity|]. split; [reflexivity|].
  apply (snapshot_replaces_whole_series live (Chart [] []) long_snapshot); reflexivity.
Defined.

Lemma polling_survives_failures_on_live :
  1%positive ∈ intervals live ∧
  inflight live = [] ∧
  intervals (run (concat (replicate 3 (failed_poll 1))) live) = intervals live ∧
  toasts (run (concat (replicate 3 (failed_poll 1))) live) =
    toasts live ++ replicate 3 (Toast "Failed to load dashboard data" "danger") ∧
  notifications (run (concat (replicate 3 (failed_poll 1))) live) = notifications live ∧
  inflight (exec (step (IntervalFires 1)) (run (concat (replicate 3 (failed_poll 1))) live)) =
    [FromInterval].
Proof.
  split; [vm_compute; left|]. split; [reflexivity|].
  apply (polling_survives_failures 3 1 live); [vm_compute; left | reflexivity].
Defined.

Lemma malformed_message_leaves_state_on_live :
  malformed (Parses (message_of "unknown_kind" (JObject []))) = true ∧
  exec (ws_onmessage (Parses (message_of "unknown_kind" (JObject [])))) live = live ∧
  returns (ws_onmessage (Parses (message_of "unknown_kind" (JObject [])))) live =
    negb (escapes (Parses (message_of "unknown_kind" (JObject [])))).
Proof.
  split; [reflexivity|].
  apply (malformed_message_leaves_state (Parses (message_of "unknown_kind" (JObject []))) live).
  reflexivity.
Defined.



(** * Further properties of the component *)

(** ** Dismissing a notification *)

Lemma findIndex_first {A : Type} (p : A → bool) (before after : list A) (x : A) :
  (∀ y, y ∈ before → p y = false) → p x = true →
  findIndex p (before ++ x :: after) = Some (length before).
Proof.
  induction before as [|y before IH]; intros Hb Hx; simpl.
  - by rewrite Hx.
  - rewrite (Hb y) by left. rewrite IH; [done| |done].
    intros z Hz. apply Hb. by right.
Qed.

(** X1. Dismissing an id removes the first notification that carries it and
    nothing else: the notifications before it and after it stay, in their
    order. *)
Theorem removeNotification_removes_first_match
    (d : dashboard) (k : Z) (before after : list notification) (n : notification) :
  notifications d = before ++ n :: after →
  n_id n = k →
  (∀ m, m ∈ before → n_id m ≠ k) →
  removeNotification (Some k) d = (Returned tt, set_notifications (before ++ after) d).
Proof.
  intros Hq Hn Hb. unfold removeNotification.
  rewrite (exec_bind _ _ d d d) by done. rewrite Hq.
  rewrite findIndex_first.
  - unfold modify. by rewrite delete_middle.
  - intros m Hm. simpl. apply Z.eqb_neq. by apply Hb.
  - simpl. by apply Z.eqb_eq.
Qed.

(** X2. Dismissing an id no notification carries changes nothing and does
    not throw. *)
Theorem removeNotification_absent_id (d : dashboard) (k : Z) :
  (∀ m, m ∈ notifications d → n_id m ≠ k) →
  removeNotification (Some k) d = (Returned tt, d).
Proof.
  intros Hk. unfold removeNotification. js_unfold.
  rewrite findIndex_none; [done|].
  intros m Hm. simpl. apply Z.eqb_neq. by apply Hk.
Qed.

(** X3. Two notifications pushed within the same millisecond get the same
    id; dismissing that id removes the newer one only, and the older one is
    then first in the queue, still carrying the id. *)
Theorem same_millisecond_dismisses_newer_only
    (d : dashboard) (t : Z) (a b : notification_arg) :
  notifications
    (exec (removeNotification (Some t))
       (exec (addNotification b) (exec (push_at (t, a)) d))) =
    take 9 (entry_of a t :: notifications d) ∧
  n_id (entry_of a t) = t.
Proof.
  split; [|done].
  assert (E1 : exec (push_at (t, a)) d = pushed a (set_clock t d)).
  { unfold push_at, exec. rewrite (exec_bind _ _ d tt (set_clock t d)) by done.
    cbv beta. cbn [fst snd]. by rewrite addNotification_run. }
  rewrite E1. unfold exec. rewrite addNotification_run.
  rewrite (removeNotification_removes_first_match _ t []
             (take 9 (take 10 (entry_of a t :: notifications d))) (entry_of b t)).
  - simpl notifications. simpl app. by rewrite take_take.
  - done.
  - done.
  - intros m Hm. by apply elem_of_nil in Hm.
Qed.

Lemma take_app_take {A : Type} (n : nat) (l r : list A) :
  take n (l ++ take n r) = take n (l ++ r).
Proof.
  rewrite !take_app, take_take. do 2 f_equal. lia.
Qed.

(** X4. After any sequence of pushes onto a queue of at most 10, the queue is
    the pushed entries, newest first, followed by what the queue held, cut
    to the first 10. *)
Theorem pushes_keep_ten_newest (ps : list (Z * notification_arg)) (d : dashboard) :
  (length (notifications d) ≤ 10)%nat →
  notifications (foldl (λ d p, exec (push_at p) d) d ps) =
    take 10 (reverse (entry_at <$> ps) ++ notifications d).
Proof.
  revert d. induction ps as [|p ps IH]; intros d Hlen.
  - simpl. by rewrite take_ge.
  - simpl foldl. rewrite IH.
    + rewrite push_at_notifications, take_app_take.
      rewrite fmap_cons, reverse_cons, <- app_assoc. done.
    + rewrite push_at_notifications, length_take. lia.
Qed.

(** ** What a computation leaves alone *)

Lemma preserves_ret {A B : Type} (obs : dashboard → B) (a : A) : preserves obs (mret a).
Proof. by intros d. Qed.

Lemma preserves_throw {A B : Type} (obs : dashboard → B) (e : exn) :
  preserves obs (throw e : js A).
Proof. by intros d. Qed.

Lemma preserves_get {B : Type} (obs : dashboard → B) : preserves obs get.
Proof. by intros d. Qed.

Lemma preserves_modify {B : Type} (obs : dashboard → B) (f : dashboard → dashboard) :
  (∀ d, obs (f d) = obs d) → preserves obs (modify f).
Proof. intros H d. apply H. Qed.

Lemma preserves_bind {A B C : Type} (obs : dashboard → C) (m : js A) (f : A → js B) :
  preserves obs m → (∀ a, preserves obs (f a)) → preserves obs (m ≫= f).
Proof.
  intros Hm Hf d. unfold mbind, js_bind. specialize (Hm d).
  destruct (m d) as [[a|e] d1]; simpl in *; [|done].
  by rewrite Hf.
Qed.

Lemma preserves_forEach {A C : Type} (obs : dashboard → C) (f : A → js unit) (l : list A) :
  (∀ x, preserves obs (f x)) → preserves obs (forEach f l).
Proof.
  intros Hf. induction l as [|x l IH]; simpl.
  - apply preserves_ret.
  - apply preserves_bind; [apply Hf | by intros _].
Qed.

Create HintDb preserves.

#[local] Hint Resolve preserves_ret preserves_throw preserves_get : preserves.

(** Follows a computation along its binds, branches and loops; a write is
    accepted when the observation does not see it. *)
Ltac preserve :=
  repeat first
    [ solve [eauto with preserves]
    | apply preserves_bind; [|intros ?]
    | apply preserves_forEach; intros ?
    | apply preserves_modify; intros ?; reflexivity
    | case_match ].

Lemma preserves_get_prop {B : Type} (obs : dashboard → B) (v : jsval) (k : string) :
  preserves obs (get_prop v k).
Proof. unfold get_prop. preserve. Qed.

#[local] Hint Resolve preserves_get_prop : preserves.

Lemma updateSalesChart_keeps_counts (orderData : jsval) :
  preserves realTimeData (updateSalesChart orderData).
Proof. unfold updateSalesChart, set_chart. preserve. Qed.

Lemma updateSalesChart_keeps_queue (orderData : jsval) :
  preserves notifications (updateSalesChart orderData).
Proof. unfold updateSalesChart, set_chart. preserve. Qed.

(** ** The other handlers *)

Lemma handleCustomerSynced_run (payload : jsval) (d : dashboard) :
  nullish payload = false →
  handleCustomerSynced payload d =
    (Returned tt, pushed (customer_notice payload) (count_customer d)).
Proof.
  intros Hp. unfold handleCustomerSynced.
  rewrite (exec_bind _ _ d tt (count_customer d)) by done.
  rewrite (exec_bind _ _ _ (prop_of "name" payload) (count_customer d))
    by (by apply get_prop_run).
  apply addNotification_run.
Qed.

Lemma handleErrorOccurred_run (payload : jsval) (d : dashboard) :
  nullish payload = false →
  handleErrorOccurred payload d =
    (Returned tt, pushed (error_notice payload) (count_error d)).
Proof.
  intros Hp. unfold handleErrorOccurred.
  rewrite (exec_bind _ _ d tt (count_error d)) by done.
  rewrite (exec_bind _ _ _ (prop_of "message" payload) (count_error d))
    by (by apply get_prop_run).
  apply addNotification_run.
Qed.

(** X5. Customer events, each with a payload, received while the customer
    counter holds an integer that stays between -2^53 and 2^53, where [++]
    is exact, raise it by exactly their number; the order and error
    counters and the charts are left as they were. *)
Theorem customer_synced_counts_each (payloads : list jsval) (d : dashboard) (n : Z) :
  Forall (λ p, nullish p = false) payloads →
  customer_count (realTimeData d) = CNum n →
  - two_53 ≤ n →
  n + Z.of_nat (length payloads) ≤ two_53 →
  customer_count (realTimeData
    (foldl (λ d p, exec (receive "customer_synced" p) d) d payloads)) =
    CNum (n + Z.of_nat (length payloads)) ∧
  order_count (realTimeData
    (foldl (λ d p, exec (receive "customer_synced" p) d) d payloads)) =
    order_count (realTimeData d) ∧
  error_count (realTimeData
    (foldl (λ d p, exec (receive "customer_synced" p) d) d payloads)) =
    error_count (realTimeData d) ∧
  chartInstances (foldl (λ d p, exec (receive "customer_synced" p) d) d payloads) =
    chartInstances d.
Proof.
  intros Hps. revert d n. induction Hps as [|p ps Hp _ IH]; intros d n Hn Hlow Hhigh.
  - simpl. by rewrite Z.add_0_r.
  - simpl foldl. simpl length in *.
    assert (E : exec (receive "customer_synced" p) d =
                pushed (customer_notice p) (count_customer d)).
    { unfold exec, receive.
      change (ws_onmessage (Parses (message_of "customer_synced" p)) d)
        with (handleCustomerSynced p d).
      by rewrite handleCustomerSynced_run. }
    rewrite E. destruct (IH (pushed (customer_notice p) (count_customer d)) (n + 1))
      as (Hc & Ho & He & Hch).
    { cbn -[increment]. rewrite Hn. apply increment_exact. lia. }
    { lia. }
    { lia. }
    rewrite Hc, Ho, He, Hch. repeat split. f_equal. lia.
Qed.

(** X6. An error event with a payload adds 1 to the error counter (through
    [++]) and puts first in the queue a notification of type danger whose
    text is the [message] of the payload as it came, [undefined] when the
    payload has none; the other counters and the charts are left as they
    were. *)
Theorem error_occurred_effect (d : dashboard) (payload : jsval) :
  nullish payload = false →
  returns (receive "error_occurred" payload) d = true ∧
  error_count (realTimeData (exec (receive "error_occurred" payload) d)) =
    increment (error_count (realTimeData d)) ∧
  order_count (realTimeData (exec (receive "error_occurred" payload) d)) =
    order_count (realTimeData d) ∧
  customer_count (realTimeData (exec (receive "error_occurred" payload) d)) =
    customer_count (realTimeData d) ∧
  chartInstances (exec (receive "error_occurred" payload) d) = chartInstances d ∧
  head (notifications (exec (receive "error_occurred" payload) d)) =
    Some (Notification "danger" "Error Occurred" (Raw (prop_of "message" payload))
            "fa-exclamation-triangle" (clock d) (clock d)).
Proof.
  intros Hp. unfold returns, exec, receive.
  change (ws_onmessage (Parses (message_of "error_occurred" payload)) d)
    with (handleErrorOccurred payload d).
  by rewrite handleErrorOccurred_run.
Qed.

(** X7. A counted event whose payload is [undefined] or [null] is counted
    all the same before the handler throws on reading the payload: the
    counter is raised, no notification is pushed, and the TypeError leaves
    the callback.  A product event in the same case changes nothing. *)
Theorem event_without_payload_is_counted (d : dashboard) (payload : jsval) :
  nullish payload = true →
  receive "order_created" payload d = (Thrown TypeError, count_order d) ∧
  receive "customer_synced" payload d = (Thrown TypeError, count_customer d) ∧
  receive "error_occurred" payload d = (Thrown TypeError, count_error d) ∧
  receive "product_updated" payload d = (Thrown TypeError, d) ∧
  notifications (count_order d) = notifications d ∧
  notifications (count_customer d) = notifications d ∧
  notifications (count_error d) = notifications d.
Proof.
  intros Hp. by destruct payload.
Qed.

Lemma display_run (health : jsval) (metrics : list string) (d : dashboard) :
  forEach (λ metric, get_prop health metric;; mret tt) metrics d =
    (if nullish health && bool_decide (metrics ≠ []) then Thrown TypeError else Returned tt, d).
Proof.
  destruct (nullish health) eqn:Hh.
  - destruct metrics as [|m metrics]; [done|]. by destruct health.
  - simpl. induction metrics as [|m metrics IH]; [done|].
    simpl. unfold mbind, js_bind at 1.
    rewrite (exec_bind _ _ d (prop_of m health) d) by (by apply get_prop_run).
    apply IH.
Qed.

(** X8. A health event replaces the health record by its payload, whatever
    the payload is, and changes nothing else; the callback throws exactly
    when the payload is [undefined] or [null] and the page shows at least
    one health value, and the record is replaced even then. *)
Theorem system_health_replaces_record (d : dashboard) (payload : jsval) :
  exec (receive "system_health" payload) d = set_systemHealth payload d ∧
  returns (receive "system_health" payload) d =
    negb (nullish payload && bool_decide (health_metrics (document d) ≠ [])).
Proof.
  unfold exec, returns, receive.
  change (ws_onmessage (Parses (message_of "system_health" payload)) d)
    with (handleSystemHealthUpdate payload d).
  unfold handleSystemHealthUpdate.
  rewrite (exec_bind _ _ d tt (set_systemHealth payload d)) by done.
  unfold updateSystemHealthDisplay.
  rewrite (exec_bind _ _ _ (set_systemHealth payload d) (set_systemHealth payload d)) by done.
  rewrite display_run. simpl.
  by destruct (nullish payload && bool_decide (health_metrics (document d) ≠ [])).
Qed.

Lemma order_event_counts (payload : jsval) (d : dashboard) :
  nullish payload = false →
  order_count (realTimeData (exec (receive "order_created" payload) d)) =
    increment (order_count (realTimeData d)).
Proof.
  intros Hp. unfold exec, receive.
  rewrite dispatch_order_created, handleOrderCreated_run by done.
  by rewrite updateSalesChart_keeps_counts.
Qed.

(** X9. An order counter that is absent, as after a first load that failed,
    or NaN holds NaN after one or more order events: no push event brings it
    back to a number. *)
Theorem order_count_stays_not_a_number (payloads : list jsval) (d : dashboard) :
  Forall (λ p, nullish p = false) payloads →
  payloads ≠ [] →
  order_count (realTimeData d) = CUndefined ∨ order_count (realTimeData d) = CNaN →
  order_count (realTimeData
    (foldl (λ d p, exec (receive "order_created" p) d) d payloads)) = CNaN.
Proof.
  intros Hps Hne Hnum.
  assert (Hnan : ∀ ps d', Forall (λ p, nullish p = false) ps →
    order_count (realTimeData d') = CNaN →
    order_count (realTimeData
      (foldl (λ d p, exec (receive "order_created" p) d) d' ps)) = CNaN).
  { intros ps d' H. revert d'. induction H as [|p ps Hp _ IH]; intros d' Hd'; [done|].
    simpl foldl. apply IH. rewrite order_event_counts by done. by rewrite Hd'. }
  destruct Hps as [|p ps Hp Hps]; [done|].
  simpl foldl. apply Hnan; [done|].
  rewrite order_event_counts by done.
  by destruct Hnum as [-> | ->].
Qed.

(** ** The channel is conserved *)

Lemma tally_app {A : Type} (p : A → bool) (l1 l2 : list A) :
  tally p (l1 ++ l2) = (tally p l1 + tally p l2)%nat.
Proof. induction l1 as [|x l1 IH]; simpl; [done|]. rewrite IH. lia. Qed.

Lemma tally_filter_split {A : Type} (p : A → bool) (P : A → Prop)
    `{!∀ x, Decision (P x)} (l : list A) :
  (tally p (filter P l) + tally p (filter (λ x, ¬ P x) l))%nat = tally p l.
Proof.
  induction l as [|x l IH]; [done|].
  rewrite !filter_cons. destruct (decide (P x)) as [HP|HP].
  - rewrite decide_False by tauto. simpl. lia.
  - rewrite decide_True by done. simpl. lia.
Qed.

Lemma tally_insert {A : Type} (p : A → bool) (l : list A) (i : nat) (x y : A) :
  l !! i = Some y →
  (tally p (<[i := x]> l) + (if p y then 1 else 0))%nat =
  (tally p l + (if p x then 1 else 0))%nat.
Proof.
  revert i. induction l as [|z l IH]; intros [|i] Hi; try done; simpl in *.
  - injection Hi as ->. lia.
  - specialize (IH i Hi). lia.
Qed.

Lemma tally_delete {A : Type} (p : A → bool) (l : list A) (i : nat) (y : A) :
  l !! i = Some y →
  (tally p (delete i l) + (if p y then 1 else 0))%nat = tally p l.
Proof.
  revert i. induction l as [|z l IH]; intros [|i] Hi; try done; simpl in *.
  - injection Hi as ->. lia.
  - specialize (IH i Hi). lia.
Qed.

Lemma preserves_try_catch {A C : Type} (obs : dashboard → C) (body : js A)
    (handler : exn → js A) :
  preserves obs body → (∀ e, preserves obs (handler e)) →
  preserves obs (try_catch body handler).
Proof.
  intros Hb Hh d. unfold try_catch. specialize (Hb d).
  destruct (body d) as [[a|e] d1]; simpl in *; [done|]. by rewrite Hh.
Qed.

Lemma preserves_finally {A C : Type} (obs : dashboard → C) (body : js A) (cleanup : js unit) :
  preserves obs body → preserves obs cleanup → preserves obs (finally body cleanup).
Proof.
  intros Hb Hc d. unfold finally. specialize (Hb d). specialize (Hc (body d).2).
  destruct (body d) as [r d1]; simpl in *.
  destruct (cleanup d1) as [[[]|e] d2]; simpl in *; congruence.
Qed.

Lemma channels_expiry_timer (id : option Z) (delay : Z) :
  preserves channels (setTimeout (ExpireNotification id) delay).
Proof.
  intros d. unfold setTimeout, modify, channels. simpl.
  rewrite tally_app. simpl. lia.
Qed.

#[local] Hint Resolve channels_expiry_timer : preserves.

Lemma channels_addNotification (a : notification_arg) :
  preserves channels (addNotification a).
Proof. unfold addNotification. preserve. Qed.

Lemma channels_removeNotification (id : option Z) :
  preserves channels (removeNotification id).
Proof. unfold removeNotification. preserve. Qed.

#[local] Hint Resolve channels_addNotification channels_removeNotification : preserves.

Lemma channels_ws_onmessage (f : frame) : preserves channels (ws_onmessage f).
Proof.
  unfold ws_onmessage, JSON_parse, handleRealTimeUpdate, handleOrderCreated,
    handleProductUpdated, handleCustomerSynced, handleErrorOccurred,
    handleSystemHealthUpdate, updateSalesChart, updateSystemHealthDisplay, set_chart.
  preserve.
Qed.

Lemma channels_onMounted : preserves channels onMounted.
Proof.
  unfold onMounted, initializeCharts, initializeSalesChart, initializeRevenueChart,
    initializeCustomerChart, initializeInventoryChart, getElementById,
    setupEventListeners, set_chart.
  preserve.
Qed.

Lemma channels_willUnmount : preserves channels willUnmount.
Proof. unfold willUnmount, clearInterval. preserve. Qed.

Lemma channels_settled (answer : option snapshot) :
  preserves channels (loadDashboardData_settled answer).
Proof.
  unfold loadDashboardData_settled.
  apply preserves_finally; [apply preserves_try_catch|].
  - unfold updateCharts, updateRevenueChart, updateCustomerChart, updateInventoryChart,
      replace_dataset, set_chart.
    preserve.
  - intros e. unfold notification_add. preserve.
  - preserve.
Qed.

Lemma settled_returns (answer : option snapshot) (d : dashboard) :
  (loadDashboardData_settled answer d).1 = Returned tt.
Proof.
  destruct answer as [snap|];
    by rewrite ?loadDashboardData_resolved, ?loadDashboardData_rejected.
Qed.

Lemma channels_run_timers (l : list (Z * timer_action)) (d : dashboard) :
  channels (forEach (λ p : Z * timer_action, run_timer p.2) l d).2 =
    (channels d + tally is_reconnect l)%nat.
Proof.
  revert d. induction l as [|[due action] l IH]; intros d; simpl.
  - lia.
  - unfold mbind, js_bind. destruct action as [id|]; simpl.
    + pose proof (channels_removeNotification id d) as Hc.
      assert (Hr : (removeNotification id d).1 = Returned tt).
      { unfold removeNotification. js_unfold. by case_match. }
      destruct (removeNotification id d) as [r d1]. simpl in *. subst r.
      rewrite IH, Hc. unfold is_reconnect. simpl. lia.
    + unfold setupWebSocket, modify. rewrite IH.
      unfold channels, is_reconnect. simpl. rewrite tally_app. simpl. lia.
Qed.

Lemma channels_step (e : event) (d : dashboard) :
  channels (exec (step e) d) = (channels d + (if is_start e then 1 else 0))%nat.
Proof.
  unfold exec, step. rewrite (exec_bind _ _ d d d) by done.
  destruct e as [| |h|i answer|i|i f|i|i|t|id|]; simpl is_start; rewrite ?Nat.add_0_r.
  - unfold onWillStart, loadDashboardData. js_unfold. unfold channels. simpl.
    rewrite tally_app. simpl. lia.
  - apply channels_onMounted.
  - case_bool_decide; [|done].
    unfold loadDashboardData. js_unfold. unfold channels. simpl.
    rewrite tally_app. simpl. lia.
  - destruct (inflight d !! i) as [origin|] eqn:Hi; [|done].
    rewrite (exec_bind _ _ d tt (set_inflight (delete i (inflight d)) d)) by done.
    pose proof (channels_settled answer (set_inflight (delete i (inflight d)) d)) as Hc.
    pose proof (settled_returns answer (set_inflight (delete i (inflight d)) d)) as Hr.
    unfold mbind, js_bind.
    destruct (loadDashboardData_settled answer _) as [r d2]. simpl in Hc, Hr. subst r.
    pose proof (tally_delete is_first_load _ _ _ Hi) as Ht.
    assert (Hd2 : (channels d2 + (if is_first_load origin then 1 else 0))%nat = channels d).
    { rewrite Hc. unfold channels in *. simpl. lia. }
    destruct origin; simpl in *.
    + unfold initializeRealTimeUpdates, setInterval, setupWebSocket. js_unfold.
      unfold channels in *. simpl. rewrite tally_app. simpl. lia.
    + lia.
  - destruct (sockets d !! i) as [[]|] eqn:Hi; try done.
    unfold ws_onopen. js_unfold. unfold channels. simpl.
    pose proof (tally_insert is_open_or_connecting _ _ Open _ Hi). simpl in *. lia.
  - destruct (sockets d !! i) as [[]|] eqn:Hi; try done.
    apply channels_ws_onmessage.
  - by case_match.
  - destruct (sockets d !! i) as [s|] eqn:Hi; [|done].
    destruct s; simpl; try done;
      unfold ws_onclose, setTimeout; js_unfold; unfold channels; simpl;
      rewrite tally_app; simpl;
      pose proof (tally_insert is_open_or_connecting _ _ Closed _ Hi); simpl in *; lia.
  - unfold elapse. rewrite (exec_bind _ _ d d d) by done.
    rewrite (exec_bind _ _ d tt (set_clock (clock d `max` t) d)) by done.
    rewrite (exec_bind _ _ _ tt
      (set_timeouts (filter (λ p : Z * timer_action, ¬ (p.1 ≤ clock d `max` t)%Z) (timeouts d))
         (set_clock (clock d `max` t) d))) by done.
    rewrite channels_run_timers. unfold channels. simpl.
    pose proof (tally_filter_split is_reconnect
      (λ p : Z * timer_action, (p.1 ≤ clock d `max` t)%Z) (timeouts d)).
    lia.
  - apply channels_removeNotification.
  - apply channels_willUnmount.
Qed.

(** X10. Along any run of events the number of channels the component has or
    is about to have (sockets not closed, reconnections pending, first loads
    in flight) grows by one with each start and never changes otherwise:
    a closed socket is replaced by exactly one, none is ever doubled, and
    none is released, not even by teardown. *)
Theorem channels_conserved (es : list event) (d : dashboard) :
  channels (run es d) = (channels d + tally is_start es)%nat.
Proof.
  revert d. induction es as [|e es IH]; intros d.
  - simpl. lia.
  - unfold run in *. simpl foldl. rewrite IH, channels_step. simpl. lia.
Qed.

(** ** Teardown and the polling timer *)

(** X11. After teardown a tick of the polling timer the component had set
    sends no fetch and changes nothing. *)
Theorem no_poll_after_teardown (d : dashboard) (h : positive) :
  updateInterval d = Some h →
  step (IntervalFires h) (exec willUnmount d) = (Returned tt, exec willUnmount d).
Proof.
  intros Hh. unfold exec. rewrite willUnmount_run. unfold interval_cleared. rewrite Hh.
  unfold step. js_unfold. simpl.
  rewrite bool_decide_eq_false_2; [done|].
  intros Hin. apply list_elem_of_filter in Hin as [Hne _]. done.
Qed.

(** X12. Teardown can be run again: a second teardown changes nothing. *)
Theorem willUnmount_idempotent (d : dashboard) :
  willUnmount (exec willUnmount d) = (Returned tt, exec willUnmount d).
Proof.
  unfold exec. rewrite !willUnmount_run. simpl. unfold interval_cleared.
  destruct (updateInterval d) as [h|] eqn:Hh; simpl; rewrite ?Hh; [|done].
  simpl. rewrite list_filter_filter.
  rewrite (list_filter_iff _ (λ h', h' ≠ h)); [done|]. tauto.
Qed.

(** ** Snapshots and the charts *)

Lemma replaced_labels (key k : string) (field : option (list jsval)) (d : dashboard) :
  labels <$> (chartInstances (replaced key field d) !! k) =
  labels <$> (chartInstances d !! k).
Proof.
  unfold replaced. destruct (chartInstances d !! key) as [c|] eqn:Hc, field; simpl; try done.
  destruct (decide (key = k)) as [->|Hne].
  - by rewrite lookup_insert_eq, Hc.
  - by rewrite lookup_insert_ne.
Qed.

Lemma replaced_dom (key : string) (field : option (list jsval)) (d : dashboard) :
  base.dom (chartInstances (replaced key field d)) = base.dom (chartInstances d).
Proof.
  unfold replaced. destruct (chartInstances d !! key) as [c|] eqn:Hc, field; simpl; try done.
  rewrite dom_insert_L. apply subseteq_union_1_L, singleton_subseteq_l.
  by apply elem_of_dom_2 with c.
Qed.

(** X13. A snapshot neither creates nor removes a chart, whatever it
    carries, and it leaves the labels of every chart but the sales chart as
    they were: only the data of the revenue, customer and inventory charts
    are replaced. *)
Theorem snapshot_keeps_charts_and_labels (snap : snapshot) (d : dashboard) (key : string) :
  key ≠ "sales" →
  base.dom (chartInstances (exec (updateCharts snap) d)) = base.dom (chartInstances d) ∧
  labels <$> (chartInstances (exec (updateCharts snap) d) !! key) =
    labels <$> (chartInstances d !! key).
Proof.
  intros Hkey. unfold exec. rewrite updateCharts_run. simpl. unfold charts_updated.
  rewrite !replaced_dom, !replaced_labels. unfold sales_replaced.
  destruct (chartInstances d !! "sales") as [c|] eqn:Hc,
           (sales_chart_data snap) as [[ls vs]|]; simpl; try done.
  split.
  - rewrite dom_insert_L. apply subseteq_union_1_L, singleton_subseteq_l.
    by apply elem_of_dom_2 with c.
  - by rewrite lookup_insert_ne.
Qed.

(** ** Fetches that overlap *)

Lemma charts_updated_frame (snap : snapshot) (d : dashboard) :
  loading (charts_updated snap d) = loading d ∧
  realTimeData (charts_updated snap d) = realTimeData d ∧
  inflight (charts_updated snap d) = inflight d.
Proof.
  unfold charts_updated.
  assert (Hr : ∀ key field d',
    loading (replaced key field d') = loading d' ∧
    realTimeData (replaced key field d') = realTimeData d' ∧
    inflight (replaced key field d') = inflight d').
  { intros. unfold replaced. by repeat case_match. }
  destruct (Hr "inventory" (inventory_status snap)
    (replaced "customer" (customer_growth snap)
       (replaced "revenue" (revenue_distribution snap) (sales_replaced snap d))))
    as (-> & -> & ->).
  destruct (Hr "customer" (customer_growth snap)
    (replaced "revenue" (revenue_distribution snap) (sales_replaced snap d)))
    as (-> & -> & ->).
  destruct (Hr "revenue" (revenue_distribution snap) (sales_replaced snap d))
    as (-> & -> & ->).
  unfold sales_replaced. by repeat case_match.
Qed.

Lemma interval_fires_run (h : positive) (d : dashboard) :
  h ∈ intervals d →
  exec (step (IntervalFires h)) d =
    set_inflight (inflight d ++ [FromInterval]) (set_loading true d).
Proof.
  intros Hh. unfold exec, step. rewrite (exec_bind _ _ d d d) by done.
  by rewrite bool_decide_eq_true_2.
Qed.

Lemma poll_settles_run (i : nat) (answer : option snapshot) (d : dashboard) :
  inflight d !! i = Some FromInterval →
  exec (step (FetchSettles i answer)) d =
    exec (loadDashboardData_settled answer) (set_inflight (delete i (inflight d)) d).
Proof.
  intros Hi. unfold exec, step. rewrite (exec_bind _ _ d d d) by done. rewrite Hi.
  rewrite (exec_bind _ _ d tt (set_inflight (delete i (inflight d)) d)) by done.
  unfold mbind, js_bind.
  by destruct (loadDashboardData_settled answer _) as [[[]|e] d'].
Qed.

Lemma settled_frame (answer : option snapshot) (d : dashboard) :
  loading (exec (loadDashboardData_settled answer) d) = false ∧
  inflight (exec (loadDashboardData_settled answer) d) = inflight d.
Proof.
  unfold exec. destruct answer as [snap|].
  - rewrite loadDashboardData_resolved. cbn [snd]. split; [done|].
    change (inflight (charts_updated snap (set_realTimeData (s_counts snap) d)) =
            inflight (set_realTimeData (s_counts snap) d)).
    apply charts_updated_frame.
  - by rewrite loadDashboardData_rejected.
Qed.

Lemma resolved_counts (snap : snapshot) (d : dashboard) :
  realTimeData (exec (loadDashboardData_settled (Some snap)) d) = s_counts snap.
Proof.
  unfold exec. rewrite loadDashboardData_resolved. cbn [snd].
  change (realTimeData (charts_updated snap (set_realTimeData (s_counts snap) d)) =
          realTimeData (set_realTimeData (s_counts snap) d)).
  apply charts_updated_frame.
Qed.

Lemma run_one (e : event) (d : dashboard) : run [e] d = exec (step e) d.
Proof. reflexivity. Qed.

Lemma run_two (e1 e2 : event) (d : dashboard) :
  run [e1; e2] d = exec (step e2) (exec (step e1) d).
Proof. reflexivity. Qed.

Lemma two_polls_run (h : positive) (d : dashboard) :
  h ∈ intervals d →
  inflight d = [] →
  run [IntervalFires h; IntervalFires h] d =
    set_inflight [FromInterval; FromInterval] (set_loading true d).
Proof.
  intros Hh Hin.
  rewrite run_two.
  rewrite (interval_fires_run h d Hh), interval_fires_run by done.
  cbn [inflight set_inflight set_loading]. by rewrite Hin.
Qed.

(** X14. The timer sends a fetch at each tick whether or not the one before
    has settled, and the first of two overlapping fetches to settle lowers
    the loading flag while the other is still in flight. *)
Theorem loading_lowered_with_fetch_in_flight
    (d : dashboard) (h : positive) (answer : option snapshot) :
  h ∈ intervals d →
  inflight d = [] →
  inflight (run [IntervalFires h; IntervalFires h] d) = [FromInterval; FromInterval] ∧
  inflight (run [IntervalFires h; IntervalFires h; FetchSettles 0 answer] d) = [FromInterval] ∧
  loading (run [IntervalFires h; IntervalFires h; FetchSettles 0 answer] d) = false.
Proof.
  intros Hh Hin. split; [by rewrite two_polls_run|].
  replace [IntervalFires h; IntervalFires h; FetchSettles 0 answer]
    with ([IntervalFires h; IntervalFires h] ++ [FetchSettles 0 answer]) by done.
  rewrite run_app, run_one, two_polls_run by done.
  rewrite poll_settles_run by done.
  destruct (settled_frame answer
    (set_inflight (delete 0%nat
       (inflight (set_inflight [FromInterval; FromInterval] (set_loading true d))))
       (set_inflight [FromInterval; FromInterval] (set_loading true d)))) as [Hl Hi].
  by rewrite Hl, Hi.
Qed.

(** X15. Of two overlapping fetches the one that settles last is the one
    shown: when the answer to the earlier request arrives after the answer
    to the later one, the counters are those of the earlier request. *)
Theorem last_settled_fetch_wins (d : dashboard) (h : positive) (older newer : snapshot) :
  h ∈ intervals d →
  inflight d = [] →
  realTimeData
    (run [IntervalFires h; IntervalFires h;
          FetchSettles 1 (Some newer); FetchSettles 0 (Some older)] d) = s_counts older ∧
  inflight
    (run [IntervalFires h; IntervalFires h;
          FetchSettles 1 (Some newer); FetchSettles 0 (Some older)] d) = [].
Proof.
  intros Hh Hin.
  replace [IntervalFires h; IntervalFires h;
           FetchSettles 1 (Some newer); FetchSettles 0 (Some older)]
    with ([IntervalFires h; IntervalFires h] ++
          [FetchSettles 1 (Some newer); FetchSettles 0 (Some older)]) by done.
  rewrite run_app, run_two, two_polls_run by done.
  rewrite (poll_settles_run 1) by done.
  remember (exec (loadDashboardData_settled (Some newer))
    (set_inflight (delete 1%nat
       (inflight (set_inflight [FromInterval; FromInterval] (set_loading true d))))
       (set_inflight [FromInterval; FromInterval] (set_loading true d)))) as d1 eqn:Hd1.
  assert (H1 : inflight d1 = [FromInterval]).
  { rewrite Hd1. by rewrite (proj2 (settled_frame (Some newer) _)). }
  clear Hd1.
  rewrite (poll_settles_run 0) by (by rewrite H1).
  rewrite resolved_counts, (proj2 (settled_frame (Some older) _)).
  split; [done|]. cbn [inflight set_inflight]. by rewrite H1.
Qed.

(** ** Start-up *)

(** X16. Whether the first load resolves or is rejected, once it has settled
    the polling timer is set and its handle kept, one socket is connecting,
    the loading flag is down and no fetch is in flight. *)
Theorem realtime_starts_after_first_load (page : dom) (now : Z) (answer : option snapshot) :
  intervals (run [WillStart; FetchSettles 0 answer] (setup page now)) = [1%positive] ∧
  updateInterval (run [WillStart; FetchSettles 0 answer] (setup page now)) = Some 1%positive ∧
  sockets (run [WillStart; FetchSettles 0 answer] (setup page now)) = [Connecting] ∧
  loading (run [WillStart; FetchSettles 0 answer] (setup page now)) = false ∧
  inflight (run [WillStart; FetchSettles 0 answer] (setup page now)) = [].
Proof. by destruct answer as [[? [[??]|] [?|] [?|] [?|]]|]. Qed.

Lemma bind_throws {A B : Type} (m : js A) (f : A → js B) (d : dashboard) (e : exn)
    (d' : dashboard) :
  m d = (Thrown e, d') → (m ≫= f) d = (Thrown e, d').
Proof. intros H. unfold mbind, js_bind. by rewrite H. Qed.

Lemma init_chart_free (canvas key : string) (c : chart) (d : dashboard) :
  chartInstances d !! key = None →
  init_chart canvas key c d = (Returned tt, with_chart canvas key c d).
Proof.
  intros Hk. unfold init_chart, with_chart, getElementById, new_Chart, set_chart.
  unfold mbind, js_bind, mret, js_ret, modify, get, throw. simpl.
  case_bool_decide; [|done]. by rewrite Hk.
Qed.

Lemma init_chart_busy (canvas key : string) (c c0 : chart) (d : dashboard) :
  chartInstances d !! key = Some c0 →
  canvas ∈ element_ids (document d) →
  init_chart canvas key c d = (Thrown ChartError, d).
Proof.
  intros Hk Hin. unfold init_chart, getElementById, new_Chart, set_chart.
  unfold mbind, js_bind, mret, js_ret, modify, get, throw. simpl.
  rewrite bool_decide_eq_true_2 by done. by rewrite Hk.
Qed.

Lemma init_chart_absent (canvas key : string) (c : chart) (d : dashboard) :
  canvas ∉ element_ids (document d) →
  init_chart canvas key c d = (Returned tt, d).
Proof.
  intros Hin. unfold init_chart, getElementById.
  unfold mbind, js_bind, mret, js_ret, modify, get. simpl.
  by rewrite bool_decide_eq_false_2.
Qed.

Lemma with_chart_document (canvas key : string) (c : chart) (d : dashboard) :
  document (with_chart canvas key c d) = document d.
Proof. unfold with_chart. by case_bool_decide. Qed.

Lemma with_chart_lookup_ne (canvas key k : string) (c : chart) (d : dashboard) :
  key ≠ k →
  chartInstances (with_chart canvas key c d) !! k = chartInstances d !! k.
Proof.
  intros Hk. unfold with_chart. case_bool_decide; [|done]. simpl. by rewrite lookup_insert_ne.
Qed.

Lemma with_chart_lookup (canvas key : string) (c : chart) (d : dashboard) :
  chartInstances (with_chart canvas key c d) !! key =
    if bool_decide (canvas ∈ element_ids (document d)) then Some c
    else chartInstances d !! key.
Proof.
  unfold with_chart. case_bool_decide; [|done]. simpl. by rewrite lookup_insert_eq.
Qed.

Lemma mounted_document (d : dashboard) : document (mounted d) = document d.
Proof. unfold mounted. cbn [foldl initial_charts fst snd]. by rewrite !with_chart_document. Qed.

Lemma mounted_lookup (d : dashboard) (canvas key : string) (c : chart) :
  chartInstances d = ∅ →
  (canvas, key, c) ∈ initial_charts →
  chartInstances (mounted d) !! key =
    if bool_decide (canvas ∈ element_ids (document d)) then Some c else None.
Proof.
  intros Hc Hin. unfold mounted, initial_charts in *. cbn [foldl fst snd].
  repeat (apply elem_of_cons in Hin as [Hin|Hin]; [injection Hin as -> -> ->|]);
    [..|by apply elem_of_nil in Hin];
    rewrite ?(with_chart_lookup_ne _ _ _ _ _) by done;
    rewrite with_chart_lookup, ?with_chart_document;
    rewrite ?(with_chart_lookup_ne _ _ _ _ _) by done;
    by rewrite Hc, lookup_empty.
Qed.

Lemma first_mount_run (d : dashboard) :
  chartInstances d = ∅ → onMounted d = (Returned tt, mounted d).
Proof.
  intros Hc. unfold onMounted, initializeCharts, setupEventListeners.
  change initializeSalesChart with (init_chart "sales_chart" "sales" (Chart [] [])).
  change initializeRevenueChart with
    (init_chart "revenue_chart" "revenue"
       (Chart (text_labels ["Online Sales"; "In-Store Sales"; "Wholesale"])
              (JNumber <$> [65; 25; 10]))).
  change initializeCustomerChart with
    (init_chart "customer_chart" "customer"
       (Chart (text_labels ["Jan"; "Feb"; "Mar"; "Apr"; "May"; "Jun"])
              (JNumber <$> [120; 150; 180; 200; 220; 250]))).
  change initializeInventoryChart with
    (init_chart "inventory_chart" "inventory"
       (Chart (text_labels ["In Stock"; "Low Stock"; "Out of Stock"])
              (JNumber <$> [70; 20; 10]))).
  erewrite exec_bind; [reflexivity|].
  erewrite exec_bind; [|apply init_chart_free; by rewrite Hc].
  erewrite exec_bind;
    [|apply init_chart_free; rewrite with_chart_lookup_ne by done; by rewrite Hc].
  erewrite exec_bind;
    [|apply init_chart_free; rewrite !with_chart_lookup_ne by done; by rewrite Hc].
  apply init_chart_free. rewrite !with_chart_lookup_ne by done. by rewrite Hc.
Qed.

Lemma second_mount_run (d : dashboard) :
  chartInstances d = ∅ →
  onMounted (mounted d) =
    (if bool_decide ("sales_chart" ∈ element_ids (document d)) ||
        bool_decide ("revenue_chart" ∈ element_ids (document d)) ||
        bool_decide ("customer_chart" ∈ element_ids (document d)) ||
        bool_decide ("inventory_chart" ∈ element_ids (document d))
     then Thrown ChartError else Returned tt, mounted d).
Proof.
  intros Hc.
  pose proof (mounted_lookup d "sales_chart" "sales" _ Hc ltac:(by left)) as Hs.
  pose proof (mounted_lookup d "revenue_chart" "revenue" _ Hc ltac:(by right; left)) as Hr.
  pose proof (mounted_lookup d "customer_chart" "customer" _ Hc
                ltac:(by right; right; left)) as Hcu.
  pose proof (mounted_lookup d "inventory_chart" "inventory" _ Hc
                ltac:(by right; right; right; left)) as Hi.
  pose proof (mounted_document d) as Hd.
  unfold onMounted, initializeCharts, setupEventListeners.
  change initializeSalesChart with (init_chart "sales_chart" "sales" (Chart [] [])).
  change initializeRevenueChart with
    (init_chart "revenue_chart" "revenue"
       (Chart (text_labels ["Online Sales"; "In-Store Sales"; "Wholesale"])
              (JNumber <$> [65; 25; 10]))).
  change initializeCustomerChart with
    (init_chart "customer_chart" "customer"
       (Chart (text_labels ["Jan"; "Feb"; "Mar"; "Apr"; "May"; "Jun"])
              (JNumber <$> [120; 150; 180; 200; 220; 250]))).
  change initializeInventoryChart with
    (init_chart "inventory_chart" "inventory"
       (Chart (text_labels ["In Stock"; "Low Stock"; "Out of Stock"])
              (JNumber <$> [70; 20; 10]))).
  destruct (decide ("sales_chart" ∈ element_ids (document d))) as [Hsales|Hsales].
  { rewrite (bool_decide_eq_true_2 _ Hsales) in *. cbn [orb].
    apply bind_throws, bind_throws.
    eapply init_chart_busy; [done | by rewrite Hd]. }
  rewrite (bool_decide_eq_false_2 _ Hsales) in *. cbn [orb].
  destruct (decide ("revenue_chart" ∈ element_ids (document d))) as [Hrevenue|Hrevenue].
  { rewrite (bool_decide_eq_true_2 _ Hrevenue) in *. cbn [orb].
    apply bind_throws. erewrite exec_bind; [|apply init_chart_absent; by rewrite Hd].
    apply bind_throws. eapply init_chart_busy; [done | by rewrite Hd]. }
  rewrite (bool_decide_eq_false_2 _ Hrevenue) in *. cbn [orb].
  destruct (decide ("customer_chart" ∈ element_ids (document d))) as [Hcustomer|Hcustomer].
  { rewrite (bool_decide_eq_true_2 _ Hcustomer) in *. cbn [orb].
    apply bind_throws. erewrite exec_bind; [|apply init_chart_absent; by rewrite Hd].
    erewrite exec_bind; [|apply init_chart_absent; by rewrite Hd].
    apply bind_throws. eapply init_chart_busy; [done | by rewrite Hd]. }
  rewrite (bool_decide_eq_false_2 _ Hcustomer) in *. cbn [orb].
  destruct (decide ("inventory_chart" ∈ element_ids (document d))) as [Hinventory|Hinventory].
  { rewrite (bool_decide_eq_true_2 _ Hinventory) in *.
    apply bind_throws. erewrite exec_bind; [|apply init_chart_absent; by rewrite Hd].
    erewrite exec_bind; [|apply init_chart_absent; by rewrite Hd].
    erewrite exec_bind; [|apply init_chart_absent; by rewrite Hd].
    eapply init_chart_busy; [done | by rewrite Hd]. }
  rewrite (bool_decide_eq_false_2 _ Hinventory) in *.
  erewrite exec_bind; [reflexivity|].
  erewrite exec_bind; [|apply init_chart_absent; by rewrite Hd].
  erewrite exec_bind; [|apply init_chart_absent; by rewrite Hd].
  erewrite exec_bind; [|apply init_chart_absent; by rewrite Hd].
  apply init_chart_absent. by rewrite Hd.
Qed.

(** X17. The series of the first snapshot are not shown: the first load
    settles before the charts exist, so after mounting the sales chart is
    empty whatever series the snapshot carried. *)
Theorem first_snapshot_series_not_shown (page : dom) (now : Z) (snap : snapshot) :
  "sales_chart" ∈ element_ids page →
  chartInstances (run [WillStart; FetchSettles 0 (Some snap); Mounted] (setup page now))
    !! "sales" = Some (Chart [] []).
Proof.
  intros Hpage.
  replace [WillStart; FetchSettles 0 (Some snap); Mounted]
    with ([WillStart; FetchSettles 0 (Some snap)] ++ [Mounted]) by done.
  rewrite run_app.
  assert (E : chartInstances (run [WillStart; FetchSettles 0 (Some snap)] (setup page now)) = ∅
              ∧ document (run [WillStart; FetchSettles 0 (Some snap)] (setup page now)) = page).
  { by destruct snap as [? [[??]|] [?|] [?|] [?|]]. }
  destruct E as [Ec Ed].
  remember (run [WillStart; FetchSettles 0 (Some snap)] (setup page now)) as d eqn:Hd.
  clear Hd.
  change (run [Mounted] d) with (onMounted d).2.
  rewrite first_mount_run by done. simpl snd.
  rewrite (mounted_lookup d "sales_chart" "sales" (Chart [] [])); [|done|by left].
  rewrite Ed. by rewrite bool_decide_eq_true_2.
Qed.

(** X18. The first mounting, on a dashboard that holds no chart, returns and
    gives each canvas the page has the chart of [initializeCharts] for it,
    and none to a canvas the page does not have.  A second mounting changes
    nothing: it throws at the first canvas it finds, which carries its chart
    already, and returns only on a page with none of the four canvases. *)
Theorem onMounted_charts (d : dashboard) (canvas key : string) (c : chart) :
  chartInstances d = ∅ →
  (canvas, key, c) ∈ initial_charts →
  returns onMounted d = true ∧
  chartInstances (exec onMounted d) !! key =
    (if bool_decide (canvas ∈ element_ids (document d)) then Some c else None) ∧
  exec onMounted (exec onMounted d) = exec onMounted d ∧
  returns onMounted (exec onMounted d) =
    negb (bool_decide ("sales_chart" ∈ element_ids (document d)) ||
          bool_decide ("revenue_chart" ∈ element_ids (document d)) ||
          bool_decide ("customer_chart" ∈ element_ids (document d)) ||
          bool_decide ("inventory_chart" ∈ element_ids (document d))).
Proof.
  intros Hc Hin. unfold returns, exec.
  rewrite first_mount_run by done. cbn [fst snd].
  rewrite second_mount_run by done. cbn [fst snd].
  rewrite (mounted_lookup d canvas key c) by done.
  repeat split. by destruct (_ || _).
Qed.

(** ** Navigation *)

(** X19. A click on a KPI card always opens the analytics form, and the
    analytics type is errors exactly when the card carries none of the
    classes of the five other cards. *)
Theorem kpi_click_defaults_to_errors (classList : list string) (date_from date_to : jsval) :
  res_model (handleKPIClick classList date_from date_to) = "shopify.analytics" ∧
  view_mode (handleKPIClick classList date_from date_to) = "form" ∧
  assoc "default_analytics_type" (context (handleKPIClick classList date_from date_to)) =
    Some (JString (cardType classList)) ∧
  (cardType classList = "errors" ↔
   ("o_kpi_sales" ∉ classList) ∧ ("o_kpi_orders" ∉ classList) ∧
   ("o_kpi_customers" ∉ classList) ∧ ("o_kpi_products" ∉ classList) ∧
   ("o_kpi_queue" ∉ classList)).
Proof.
  repeat split; unfold cardType, contains in *;
    repeat case_bool_decide; try done; try tauto;
    match goal with H : _ = "errors" |- _ => discriminate H end.
Qed.

(** X20. The quick actions open different models: two buttons that open the
    same window carry the same action, and every window a button opens is a
    list of records with its form, in the current target and without
    context. *)
Theorem quick_actions_distinct (a b : option string) (w : act_window) :
  handleQuickAction a = Some w →
  handleQuickAction b = Some w →
  a = b ∧ view_mode w = "list,form" ∧ target w = "current" ∧ context w = [].
Proof.
  unfold handleQuickAction.
  destruct a as [a|], b as [b|]; try discriminate.
  repeat (case_match; try discriminate);
    repeat match goal with
           | H : String.eqb _ _ = true |- _ => apply String.eqb_eq in H; subst
           end;
    intros Ha Hb; injection Ha as <-; try discriminate Hb; done.
Qed.

(** X21. A button without an action, or with one that is none of the six,
    opens nothing. *)
Theorem unknown_quick_action_opens_nothing (a : option string) :
  (∀ s, a = Some s → s ∉ ["orders"; "products"; "customers"; "queue"; "logs"; "cron"]) →
  handleQuickAction a = None.
Proof.
  intros Ha. destruct a as [s|]; [|done].
  specialize (Ha s eq_refl). unfold handleQuickAction.
  repeat (case_match;
    [match goal with
     | H : String.eqb _ _ = true |- _ =>
         apply String.eqb_eq in H; subst; exfalso; apply Ha; set_solver
     end|]).
  done.
Qed.

(** ** The health display *)

(** X22. The class of a health value follows two thresholds that belong to
    the lower band: above 90 is good, above 70 and up to 90 is a warning,
    70 and below is an error. *)
Theorem health_class_bands (value : Z) :
  (health_class value = "o_health_good" ↔ 90 < value) ∧
  (health_class value = "o_health_warning" ↔ 70 < value ≤ 90) ∧
  (health_class value = "o_health_error" ↔ value ≤ 70).
Proof.
  unfold health_class.
  destruct (90 <? value) eqn:H90; [apply Z.ltb_lt in H90|apply Z.ltb_ge in H90];
    (destruct (70 <? value) eqn:H70; [apply Z.ltb_lt in H70|apply Z.ltb_ge in H70]);
    repeat split; intros; try lia; try done.
Qed.

(** ** The loading flag and the fetches in flight *)

Lemma step_keeps_fetch_state (e : event) :
  fetch_event e = false → preserves fetch_state (step e).
Proof.
  intros He. unfold step. destruct e; try discriminate He;
    unfold ws_onopen, ws_onerror, ws_onclose, ws_onmessage, JSON_parse,
      handleRealTimeUpdate, handleOrderCreated, handleProductUpdated,
      handleCustomerSynced, handleErrorOccurred, handleSystemHealthUpdate,
      addNotification, removeNotification, setTimeout, updateSalesChart,
      updateSystemHealthDisplay, onMounted, initializeCharts, initializeSalesChart,
      initializeRevenueChart, initializeCustomerChart, initializeInventoryChart,
      getElementById, setupEventListeners, new_Chart, set_chart, elapse, run_timer,
      setupWebSocket, willUnmount, clearInterval;
    preserve.
Qed.

Lemma keeps_loading_initializeRealTimeUpdates : keeps_loading initializeRealTimeUpdates.
Proof. unfold initializeRealTimeUpdates, setInterval, setupWebSocket. keeps. Qed.

Lemma fetch_settles_lowers (i : nat) (answer : option snapshot) (d : dashboard)
    (origin : fetch_origin) :
  inflight d !! i = Some origin →
  loading (exec (step (FetchSettles i answer)) d) = false.
Proof.
  intros Hi. unfold exec, step. rewrite (exec_bind _ _ d d d) by done. rewrite Hi.
  rewrite (exec_bind _ _ d tt (set_inflight (delete i (inflight d)) d)) by done.
  pose proof (settled_returns answer (set_inflight (delete i (inflight d)) d)) as Hr.
  pose proof (settled_frame answer (set_inflight (delete i (inflight d)) d)) as [Hl _].
  unfold exec in Hl. unfold mbind, js_bind.
  destruct (loadDashboardData_settled answer _) as [r d1]. simpl in Hr, Hl. subst r.
  destruct origin; [|done].
  by rewrite keeps_loading_initializeRealTimeUpdates.
Qed.

Lemma flag_needs_fetch_step (e : event) (d : dashboard) :
  loading d = false ∨ inflight d ≠ [] →
  loading (exec (step e) d) = false ∨ inflight (exec (step e) d) ≠ [].
Proof.
  intros Hd. destruct (fetch_event e) eqn:He.
  - destruct e as [| |h|i answer| | | | | | |]; try discriminate He.
    + right. unfold exec, step, onWillStart, loadDashboardData. js_unfold. simpl.
      by destruct (inflight d).
    + destruct (decide (h ∈ intervals d)) as [Hh|Hh].
      * right. rewrite interval_fires_run by done. simpl. by destruct (inflight d).
      * unfold exec, step. rewrite (exec_bind _ _ d d d) by done.
        by rewrite bool_decide_eq_false_2.
    + destruct (inflight d !! i) as [origin|] eqn:Hi.
      * left. by apply fetch_settles_lowers with origin.
      * unfold exec, step. rewrite (exec_bind _ _ d d d) by done. by rewrite Hi.
  - pose proof (step_keeps_fetch_state e He d) as Hk. unfold fetch_state in Hk.
    injection Hk as Hl Hi. unfold exec. by rewrite Hl, Hi.
Qed.

Lemma flag_needs_fetch_run (es : list event) (d : dashboard) :
  loading d = false ∨ inflight d ≠ [] →
  loading (run es d) = false ∨ inflight (run es d) ≠ [].
Proof.
  revert d. induction es as [|e es IH]; intros d Hd; [done|].
  unfold run in *. simpl foldl. by apply IH, flag_needs_fetch_step.
Qed.

(** C9, as the code has it. Every fetch raises the flag when it is sent and
    every fetch lowers it when it settles, resolved or rejected, the first
    fetch and the polls of the timer alike, whether or not another fetch is
    still in flight; no other event changes it; and along any run of events
    from start-up the flag is never up while no fetch is in flight. *)
Theorem loading_follows_every_fetch
    (origin : fetch_origin) (answer : option snapshot) (e : event) (d : dashboard)
    (es : list event) (page : dom) (now : Z) :
  returns (loadDashboardData origin) d = true ∧
  loading (exec (loadDashboardData origin) d) = true ∧
  returns (loadDashboardData_settled answer) d = true ∧
  loading (exec (loadDashboardData_settled answer) d) = false ∧
  (if fetch_event e then True else loading (exec (step e) d) = loading d) ∧
  (loading (run es (setup page now)) = false ∨ inflight (run es (setup page now)) ≠ []).
Proof.
  split; [done|]. split; [done|].
  split; [|split; [|split]].
  - unfold returns. by rewrite settled_returns.
  - apply settled_frame.
  - destruct (fetch_event e) eqn:He; [done|]. by apply step_keeps_loading.
  - apply flag_needs_fetch_run. by left.
Qed.

(** ** The further properties at work on the scenes *)

Lemma removeNotification_removes_first_match_on_two_notices :
  notifications two_notices =
    [entry_of (customer_notice mug) 2000] ++ entry_of (product_notice mug) 1000 :: [] ∧
  n_id (entry_of (product_notice mug) 1000) = 1000 ∧
  (∀ m, m ∈ [entry_of (customer_notice mug) 2000] → n_id m ≠ 1000) ∧
  removeNotification (Some 1000) two_notices =
    (Returned tt,
     set_notifications ([entry_of (customer_notice mug) 2000] ++ []) two_notices).
Proof.
  assert (H : ∀ m, m ∈ [entry_of (customer_notice mug) 2000] → n_id m ≠ 1000).
  { intros m Hm. apply list_elem_of_singleton in Hm as ->. discriminate. }
  split; [reflexivity|]. split; [reflexivity|]. split; [exact H|].
  apply (removeNotification_removes_first_match two_notices 1000
           [entry_of (customer_notice mug) 2000] [] (entry_of (product_notice mug) 1000));
    [reflexivity | reflexivity | exact H].
Defined.

Lemma removeNotification_absent_id_on_two_notices :
  (∀ m, m ∈ notifications two_notices → n_id m ≠ 5) ∧
  removeNotification (Some 5) two_notices = (Returned tt, two_notices).
Proof.
  assert (H : ∀ m, m ∈ notifications two_notices → n_id m ≠ 5).
  { intros m Hm.
    change (notifications two_notices)
      with [entry_of (customer_notice mug) 2000; entry_of (product_notice mug) 1000] in Hm.
    apply elem_of_cons in Hm as [->|Hm]; [discriminate|].
    apply list_elem_of_singleton in Hm as ->. discriminate. }
  split; [exact H|].
  apply (removeNotification_absent_id two_notices 5 H).
Defined.

Lemma pushes_keep_ten_newest_on_live :
  (length (notifications live) ≤ 10)%nat ∧
  notifications (foldl (λ d p, exec (push_at p) d) live pushes_12) =
    take 10 (reverse (entry_at <$> pushes_12) ++ notifications live).
Proof.
  split; [vm_compute; lia|].
  apply (pushes_keep_ten_newest pushes_12 live). vm_compute. lia.
Defined.

Lemma customer_synced_counts_each_on_live :
  Forall (λ p, nullish p = false) [mug; mug] ∧
  customer_count (realTimeData live) = CNum 3 ∧
  - two_53 ≤ 3 ∧
  3 + Z.of_nat (length [mug; mug]) ≤ two_53 ∧
  customer_count (realTimeData
    (foldl (λ d p, exec (receive "customer_synced" p) d) live [mug; mug])) =
    CNum (3 + Z.of_nat (length [mug; mug])) ∧
  order_count (realTimeData
    (foldl (λ d p, exec (receive "customer_synced" p) d) live [mug; mug])) =
    order_count (realTimeData live) ∧
  error_count (realTimeData
    (foldl (λ d p, exec (receive "customer_synced" p) d) live [mug; mug])) =
    error_count (realTimeData live) ∧
  chartInstances (foldl (λ d p, exec (receive "customer_synced" p) d) live [mug; mug]) =
    chartInstances live.
Proof.
  split; [repeat constructor|]. split; [reflexivity|].
  split; [unfold two_53; lia|]. split; [unfold two_53; simpl; lia|].
  apply (customer_synced_counts_each [mug; mug] live 3);
    [repeat constructor | reflexivity | unfold two_53; lia | unfold two_53; simpl; lia].
Defined.

Lemma error_occurred_effect_on_live :
  nullish (JObject [("message", JString "boom")]) = false ∧
  returns (receive "error_occurred" (JObject [("message", JString "boom")])) live = true ∧
  error_count (realTimeData
    (exec (receive "error_occurred" (JObject [("message", JString "boom")])) live)) =
    increment (error_count (realTimeData live)) ∧
  order_count (realTimeData
    (exec (receive "error_occurred" (JObject [("message", JString "boom")])) live)) =
    order_count (realTimeData live) ∧
  customer_count (realTimeData
    (exec (receive "error_occurred" (JObject [("message", JString "boom")])) live)) =
    customer_count (realTimeData live) ∧
  chartInstances
    (exec (receive "error_occurred" (JObject [("message", JString "boom")])) live) =
    chartInstances live ∧
  head (notifications
    (exec (receive "error_occurred" (JObject [("message", JString "boom")])) live)) =
    Some (Notification "danger" "Error Occurred"
            (Raw (prop_of "message" (JObject [("message", JString "boom")])))
            "fa-exclamation-triangle" (clock live) (clock live)).
Proof.
  split; [reflexivity|].
  apply (error_occurred_effect live (JObject [("message", JString "boom")])). reflexivity.
Defined.

Lemma event_without_payload_is_counted_on_live :
  nullish JUndefined = true ∧
  receive "order_created" JUndefined live = (Thrown TypeError, count_order live) ∧
  receive "customer_synced" JUndefined live = (Thrown TypeError, count_customer live) ∧
  receive "error_occurred" JUndefined live = (Thrown TypeError, count_error live) ∧
  receive "product_updated" JUndefined live = (Thrown TypeError, live) ∧
  notifications (count_order live) = notifications live ∧
  notifications (count_customer live) = notifications live ∧
  notifications (count_error live) = notifications live.
Proof.
  split; [reflexivity|].
  apply (event_without_payload_is_counted live JUndefined). reflexivity.
Defined.

Lemma order_count_stays_not_a_number_on_unloaded :
  Forall (λ p, nullish p = false) [order_42; order_42] ∧
  [order_42; order_42] ≠ [] ∧
  (order_count (realTimeData unloaded) = CUndefined ∨
   order_count (realTimeData unloaded) = CNaN) ∧
  order_count (realTimeData
    (foldl (λ d p, exec (receive "order_created" p) d) unloaded [order_42; order_42])) = CNaN.
Proof.
  split; [repeat constructor|]. split; [discriminate|]. split; [left; reflexivity|].
  apply (order_count_stays_not_a_number [order_42; order_42] unloaded);
    [repeat constructor | discriminate | left; reflexivity].
Defined.

Lemma no_poll_after_teardown_on_live :
  updateInterval live = Some 1%positive ∧
  step (IntervalFires 1) (exec willUnmount live) = (Returned tt, exec willUnmount live).
Proof.
  split; [reflexivity|].
  apply (no_poll_after_teardown live 1). reflexivity.
Defined.

Lemma snapshot_keeps_charts_and_labels_on_live :
  "revenue" ≠ "sales" ∧
  base.dom (chartInstances (exec (updateCharts long_snapshot) live)) =
    base.dom (chartInstances live) ∧
  labels <$> (chartInstances (exec (updateCharts long_snapshot) live) !! "revenue") =
    labels <$> (chartInstances live !! "revenue").
Proof.
  split; [discriminate|].
  apply (snapshot_keeps_charts_and_labels long_snapshot live "revenue"). discriminate.
Defined.

Lemma loading_lowered_with_fetch_in_flight_on_live :
  1%positive ∈ intervals live ∧
  inflight live = [] ∧
  inflight (run [IntervalFires 1; IntervalFires 1] live) = [FromInterval; FromInterval] ∧
  inflight (run [IntervalFires 1; IntervalFires 1; FetchSettles 0 None] live) =
    [FromInterval] ∧
  loading (run [IntervalFires 1; IntervalFires 1; FetchSettles 0 None] live) = false.
Proof.
  split; [vm_compute; left|]. split; [reflexivity|].
  apply (loading_lowered_with_fetch_in_flight live 1 None); [vm_compute; left | reflexivity].
Defined.

Lemma last_settled_fetch_wins_on_live :
  1%positive ∈ intervals live ∧
  inflight live = [] ∧
  realTimeData
    (run [IntervalFires 1; IntervalFires 1;
          FetchSettles 1 (Some long_snapshot); FetchSettles 0 (Some first_snapshot)] live) =
    s_counts first_snapshot ∧
  inflight
    (run [IntervalFires 1; IntervalFires 1;
          FetchSettles 1 (Some long_snapshot); FetchSettles 0 (Some first_snapshot)] live) = [].
Proof.
  split; [vm_compute; left|]. split; [reflexivity|].
  apply (last_settled_fetch_wins live 1 first_snapshot long_snapshot);
    [vm_compute; left | reflexivity].
Defined.

Lemma first_snapshot_series_not_shown_on_page :
  "sales_chart" ∈ element_ids page ∧
  chartInstances (run [WillStart; FetchSettles 0 (Some long_snapshot); Mounted] (setup page 0))
    !! "sales" = Some (Chart [] []).
Proof.
  split; [vm_compute; left|].
  apply (first_snapshot_series_not_shown page 0 long_snapshot). vm_compute. left.
Defined.

Lemma onMounted_charts_on_setup :
  chartInstances (setup page 0) = ∅ ∧
  ("revenue_chart", "revenue",
   Chart (text_labels ["Online Sales"; "In-Store Sales"; "Wholesale"])
         (JNumber <$> [65; 25; 10])) ∈ initial_charts ∧
  returns onMounted (setup page 0) = true ∧
  chartInstances (exec onMounted (setup page 0)) !! "revenue" =
    (if bool_decide ("revenue_chart" ∈ element_ids (document (setup page 0)))
     then Some (Chart (text_labels ["Online Sales"; "In-Store Sales"; "Wholesale"])
                      (JNumber <$> [65; 25; 10]))
     else None) ∧
  exec onMounted (exec onMounted (setup page 0)) = exec onMounted (setup page 0) ∧
  returns onMounted (exec onMounted (setup page 0)) =
    negb (bool_decide ("sales_chart" ∈ element_ids (document (setup page 0))) ||
          bool_decide ("revenue_chart" ∈ element_ids (document (setup page 0))) ||
          bool_decide ("customer_chart" ∈ element_ids (document (setup page 0))) ||
          bool_decide ("inventory_chart" ∈ element_ids (document (setup page 0)))).
Proof.
  split; [reflexivity|]. split; [right; left|].
  apply (onMounted_charts (setup page 0) "revenue_chart" "revenue"
           (Chart (text_labels ["Online Sales"; "In-Store Sales"; "Wholesale"])
                  (JNumber <$> [65; 25; 10]))); [reflexivity | right; left].
Defined.

Lemma quick_actions_distinct_on_orders :
  handleQuickAction (Some "orders") = Some navigateToOrders ∧
  Some "orders" = Some "orders" ∧
  view_mode navigateToOrders = "list,form" ∧
  target navigateToOrders = "current" ∧
  context navigateToOrders = [].
Proof.
  split; [reflexivity|].
  apply (quick_actions_distinct (Some "orders") (Some "orders") navigateToOrders);
    reflexivity.
Defined.

Lemma unknown_quick_action_opens_nothing_on_settings :
  (∀ s, Some "settings" = Some s →
        s ∉ ["orders"; "products"; "customers"; "queue"; "logs"; "cron"]) ∧
  handleQuickAction (Some "settings") = None.
Proof.
  assert (H : ∀ s, Some "settings" = Some s →
                   s ∉ ["orders"; "products"; "customers"; "queue"; "logs"; "cron"]).
  { intros s Hs. injection Hs as <-. intros Hin.
    repeat (apply elem_of_cons in Hin as [Hin|Hin]; [discriminate Hin|]).
    by apply elem_of_nil in Hin. }
  split; [exact H|].
  apply (unknown_quick_action_opens_nothing (Some "settings") H).
Defined.
